(** * Wallet transaction helpers and the network colour hook

    A shallow embedding of [src/storage/TransactionProvider.tsx] (the three
    asynchronous helpers [makeBurnTxn], [makePaymentTxn] and
    [calculatePaymentTxnFee] of [useTransactionHook]) and of the colour
    selection hook that follows it in the same source file.

    The helpers are glue code: every interesting value comes from a
    collaborator (key storage, the GraphQL client, the Helium SDK).  The
    collaborators are therefore an interface ([Sdk]); their effectful entry
    points are events of a small free monad ([prog]) and a run against a
    handler records the calls that were made, in order. *)

From Stdlib Require Import String Ascii ZArith List Bool Lia.
From ExtLib Require Import Structures.Monad.
Import ListNotations.
Import MonadNotation.

Local Open Scope string_scope.
Local Open Scope Z_scope.
Local Open Scope monad_scope.

Set Implicit Arguments.

(** ** JavaScript values *)

(** A JS [number].  The helpers only ever add one to a nonce, which the
    GraphQL schema types as a 32-bit [Int]; on those the double-precision
    addition is the integer one. *)
Definition number := Z.

(** [new Error(message)] *)
Inductive exn : Type :=
| Error (message : string).

(** Truthiness of a string: only the empty string is falsy. *)
Definition truthy_string (s : string) : bool :=
  negb (String.eqb s "").

(** Truthiness of a number: zero is falsy. *)
Definition truthy_number (n : number) : bool :=
  negb (Z.eqb n 0).

(** Truthiness of an optional number ([undefined] and [null] are falsy). *)
Definition truthy_onumber (o : option number) : bool :=
  match o with
  | Some n => truthy_number n
  | None => false
  end.

(** [o || d] on an optional number. *)
Definition or_number (o : option number) (d : number) : number :=
  match o with
  | Some n => if truthy_number n then n else d
  | None => d
  end.

(** ** Plain data of the source file *)

(** [CurrencyType] of [@helium/currency], restricted to the kinds the file
    imports. *)
Inductive CurrencyType : Type :=
| dataCredit
| networkToken
| testNetworkToken.

(** One element of the [payments] array handed to [new PaymentV2]. *)
Record Payment (Address : Type) : Type := mkPayment {
  payee : Address;
  amount : number;
  memo : option string
}.

(** The object literal handed to [new PaymentV2]. *)
Record PaymentOptions (Address : Type) : Type := mkPaymentOptions {
  po_payer : Address;
  po_payments : list (Payment Address);
  po_nonce : number
}.

(** The object literal handed to [new TokenBurnV1]. *)
Record TokenBurnOptions (Address : Type) : Type := mkTokenBurnOptions {
  tb_payer : Address;
  tb_payee : Address;
  tb_amount : number;
  tb_nonce : number;
  tb_memo : string
}.

(** The object literal handed to [Transaction.config] by [makeBurnTxn]. *)
Record TxnConfig : Type := mkTxnConfig {
  cfg_dcPayloadSize : number;
  cfg_txnFeeMultiplier : number
}.

(** The fields of the account query that the helpers read. *)
Record AccountData : Type := mkAccountData {
  nonce : option number;
  speculativeNonce : option number
}.

Record AccountQuery : Type := mkAccountQuery {
  account : option AccountData
}.

(** The resolved value of [fetchAccount()]. *)
Record QueryResult : Type := mkQueryResult {
  data : option AccountQuery
}.

(** The stored account; only its address is read. *)
Record CSAccount : Type := mkCSAccount {
  address : string
}.

(** [type PartialPaymentTxn] *)
Record PartialPayment : Type := mkPartialPayment {
  pp_payee : string;
  pp_memo : option string;
  pp_amount : number
}.

Record PartialPaymentTxn : Type := mkPartialPaymentTxn {
  type : string;
  payments : list PartialPayment;
  payer : option string;
  ptx_nonce : option number;
  fee : option number
}.

(** ** The collaborators *)

(** The SDK types and their pure members.  [Address.fromB58] can throw;
    property reads cannot. *)
Class Sdk : Type := {
  Address : Type;
  Keypair : Type;
  TokenBurnV1 : Type;
  PaymentV2 : Type;
  Balance : Type;
  Address_fromB58 : string -> exn + Address;
  Address_isValid : string -> bool;
  Address_b58 : Address -> string;
  Keypair_address : Keypair -> Address;
  Balance_integerBalance : Balance -> number;
  Balance_new : number -> CurrencyType -> Balance;
  PaymentV2_type : PaymentV2 -> string;
  PaymentV2_payments : PaymentV2 -> list (Payment Address);
  PaymentV2_payer : PaymentV2 -> option Address;
  PaymentV2_nonce : PaymentV2 -> option number;
  PaymentV2_fee : PaymentV2 -> option number
}.

(** [encodeMemoString] of [../components/MemoInput], which is not part of
    the source file: taken as a parameter. *)
Class MemoInput : Type := {
  encodeMemoString : string -> option string
}.

(** [type SendDetails] *)
Record SendDetails `{Sdk} : Type := mkSendDetails {
  sd_payee : string;
  sd_balanceAmount : Balance;
  sd_memo : string
}.

(** The argument object of [makeBurnTxn]. *)
Record BurnArgs : Type := mkBurnArgs {
  payeeB58 : string;
  burn_amount : number;
  burn_nonce : number;
  burn_memo : string;
  dcPayloadSize : option number;
  txnFeeMultiplier : option number
}.

(** The resolved value of [makePaymentTxn]. *)
Record PaymentResult `{Sdk} : Type := mkPaymentResult {
  signedTxn : PaymentV2;
  partialTxn : PartialPaymentTxn
}.

(** What the hook closes over when the helpers are created: the stored
    account and the cache-only account query. *)
Record HookState : Type := mkHookState {
  currentAccount : option CSAccount;
  accountData : option AccountQuery
}.

(** ** Effects *)

(** The effectful entry points, indexed by what they resolve to. *)
Inductive sdkE `{Sdk} : Type -> Type :=
| GetKeypair : sdkE (option Keypair)
| FetchAccount : sdkE QueryResult
| TransactionConfig (c : TxnConfig) : sdkE unit
| NewTokenBurnV1 (o : TokenBurnOptions Address) : sdkE TokenBurnV1
| SignTokenBurnV1 (t : TokenBurnV1) (k : Keypair) : sdkE TokenBurnV1
| NewPaymentV2 (o : PaymentOptions Address) : sdkE PaymentV2
| SignPaymentV2 (t : PaymentV2) (k : Keypair) : sdkE PaymentV2.

(** An asynchronous function body: return, throw, or await a collaborator
    and continue. *)
Inductive prog `{Sdk} (R : Type) : Type :=
| Ret (r : R)
| Throw (e : exn)
| Call (X : Type) (c : sdkE X) (k : X -> prog R).

Arguments Ret {_ R} r.
Arguments Throw {_ R} e.
Arguments Call {_ R X} c k.

Fixpoint bind_prog `{Sdk} {A B : Type} (p : prog A) (f : A -> prog B) : prog B :=
  match p with
  | Ret a => f a
  | Throw e => Throw e
  | Call c k => Call c (fun x => bind_prog (k x) f)
  end.

#[export] Instance Monad_prog `{Sdk} : Monad prog :=
  {| ret := fun _ r => Ret r;
     bind := fun _ _ p f => bind_prog p f |}.

(** [await c] *)
Definition await `{Sdk} {X : Type} (c : sdkE X) : prog X :=
  Call c (fun x => Ret x).

(** A pure expression that may throw, evaluated inside a body. *)
Definition eval `{Sdk} {X : Type} (r : exn + X) : prog X :=
  match r with
  | inl e => Throw e
  | inr x => Ret x
  end.

(** [xs.map(f)] for a callback that may throw: elements are visited in
    order and the first exception aborts the map. *)
Fixpoint map_throwing {A B : Type} (f : A -> exn + B) (xs : list A) : exn + list B :=
  match xs with
  | [] => inr []
  | x :: rest =>
      match f x with
      | inl e => inl e
      | inr y =>
          match map_throwing f rest with
          | inl e => inl e
          | inr ys => inr (y :: ys)
          end
      end
  end.

(** ** The helpers of [useTransactionHook] *)

Section TransactionHook.

Context `{Sdk} `{MemoInput}.

(** [export const EMPTY_B58_ADDRESS = Address.fromB58('13Puqy...')].
    The initialiser runs once when the module loads; should it throw, the
    exception is modelled as resurfacing wherever the constant is read. *)
Definition EMPTY_B58_ADDRESS : exn + Address :=
  Address_fromB58 "13PuqyWXzPYeXcF1B9ZRx7RLkEygeL374ZABiQdwRSNzASdA1sn".

(** [q?.account?.speculativeNonce] *)
Definition speculativeNonceOf (q : option AccountQuery) : option number :=
  match q with
  | Some q =>
      match account q with
      | Some a => speculativeNonce a
      | None => None
      end
  | None => None
  end.

(** [q?.account?.nonce] *)
Definition nonceOf (q : option AccountQuery) : option number :=
  match q with
  | Some q =>
      match account q with
      | Some a => nonce a
      | None => None
      end
  | None => None
  end.

(** [currentAccount?.address] *)
Definition currentAddress (hook : HookState) : option string :=
  match currentAccount hook with
  | Some a => Some (address a)
  | None => None
  end.

(** [makeBurnTxn] *)
Definition makeBurnTxn (a : BurnArgs) : prog TokenBurnV1 :=
  keypair <- await GetKeypair ;;
  match keypair with
  | None => Throw (Error "missing keypair")
  | Some keypair =>
      payee <- eval (Address_fromB58 (payeeB58 a)) ;;
      match dcPayloadSize a, txnFeeMultiplier a with
      | Some size, Some mult =>
          if truthy_number size && truthy_number mult
          then await (TransactionConfig
                        {| cfg_dcPayloadSize := size;
                           cfg_txnFeeMultiplier := mult |})
          else ret tt
      | _, _ => ret tt
      end ;;
      tokenBurnTxn <- await (NewTokenBurnV1
                               {| tb_payer := Keypair_address keypair;
                                  tb_payee := payee;
                                  tb_amount := burn_amount a;
                                  tb_nonce := burn_nonce a;
                                  tb_memo := burn_memo a |}) ;;
      await (SignTokenBurnV1 tokenBurnTxn keypair)
  end.

(** The [map] callback of [makePaymentTxn]. *)
Definition paymentOf (d : SendDetails) : exn + Payment Address :=
  match Address_fromB58 (sd_payee d) with
  | inl e => inl e
  | inr a =>
      inr {| payee := a;
             amount := Balance_integerBalance (sd_balanceAmount d);
             memo := encodeMemoString (sd_memo d) |}
  end.

(** The [txnJson] literal of [makePaymentTxn]. *)
Definition txnJsonOf (txn : PaymentV2) : PartialPaymentTxn :=
  {| type := PaymentV2_type txn;
     payments :=
       map (fun p => {| pp_payee := Address_b58 (payee p);
                        pp_memo := memo p;
                        pp_amount := amount p |})
           (PaymentV2_payments txn);
     payer := option_map Address_b58 (PaymentV2_payer txn);
     ptx_nonce := PaymentV2_nonce txn;
     fee := PaymentV2_fee txn |}.

(** [makePaymentTxn] *)
Definition makePaymentTxn (paymentDetails : list SendDetails)
  : prog PaymentResult :=
  keypair <- await GetKeypair ;;
  match keypair with
  | None => Throw (Error "missing keypair")
  | Some keypair =>
      fresh <- await FetchAccount ;;
      match speculativeNonceOf (data fresh) with
      | None =>
          Throw (Error "Could not find speculative nonce for the current account")
      | Some specNonce =>
          pays <- eval (map_throwing paymentOf paymentDetails) ;;
          txn <- await (NewPaymentV2
                          {| po_payer := Keypair_address keypair;
                             po_payments := pays;
                             po_nonce := specNonce + 1 |}) ;;
          let txnJson := txnJsonOf txn in
          signed <- await (SignPaymentV2 txn keypair) ;;
          ret {| signedTxn := signed; partialTxn := txnJson |}
      end
  end.

(** The [map] callback of [calculatePaymentTxnFee]: a payee that is empty
    or not valid is replaced by the dummy address. *)
Definition feePaymentOf (d : SendDetails) : exn + Payment Address :=
  match (if truthy_string (sd_payee d) && Address_isValid (sd_payee d)
         then Address_fromB58 (sd_payee d)
         else EMPTY_B58_ADDRESS) with
  | inl e => inl e
  | inr a =>
      inr {| payee := a;
             amount := Balance_integerBalance (sd_balanceAmount d);
             memo := encodeMemoString (sd_memo d) |}
  end.

(** [calculatePaymentTxnFee] *)
Definition calculatePaymentTxnFee (hook : HookState)
           (paymentDetails : list SendDetails) : prog Balance :=
  match currentAddress hook with
  | None =>
      Throw (Error "Cannot calculate payment txn fee. Current account not found")
  | Some addr =>
      if negb (truthy_string addr)
      then Throw (Error "Cannot calculate payment txn fee. Current account not found")
      else
        from <- eval (Address_fromB58 addr) ;;
        pays <- eval (map_throwing feePaymentOf paymentDetails) ;;
        paymentTxn <- await (NewPaymentV2
                               {| po_payer := from;
                                  po_payments := pays;
                                  po_nonce := or_number (nonceOf (accountData hook)) 0 + 1 |}) ;;
        ret (Balance_new (or_number (PaymentV2_fee paymentTxn) 0) dataCredit)
  end.

(** ** Running a body against the collaborators *)

(** One recorded call. *)
Definition call : Type := { X : Type & sdkE X }.

(** The collaborators' behaviour: each call resolves or rejects and may
    change the world (the network, the key store, the SDK's static
    configuration). *)
Definition handler (World : Type) : Type :=
  forall X : Type, sdkE X -> World -> (exn + X) * World.

Record Run (World R : Type) : Type := mkRun {
  trace : list call;
  outcome : exn + R;
  final : World
}.

Fixpoint run {World R : Type} (h : handler World) (p : prog R) (w : World)
  : Run World R :=
  match p with
  | Ret r => {| trace := []; outcome := inr r; final := w |}
  | Throw e => {| trace := []; outcome := inl e; final := w |}
  | Call c k =>
      match h _ c w with
      | (inl e, w') =>
          {| trace := [existT _ _ c]; outcome := inl e; final := w' |}
      | (inr x, w') =>
          let r := run h (k x) w' in
          {| trace := existT _ _ c :: trace r;
             outcome := outcome r;
             final := final r |}
      end
  end.

(** The body rejects. *)
Definition throws {World R : Type} (r : Run World R) : Prop :=
  exists e, outcome r = inl e.

(** The kinds of step a helper can take. *)
Inductive step : Type :=
| FetchKeypair
| FetchAccountState
| Configure
| Construct
| Sign.

Definition step_of (c : call) : step :=
  match c with
  | existT _ _ GetKeypair => FetchKeypair
  | existT _ _ FetchAccount => FetchAccountState
  | existT _ _ (TransactionConfig _) => Configure
  | existT _ _ (NewTokenBurnV1 _) => Construct
  | existT _ _ (SignTokenBurnV1 _ _) => Sign
  | existT _ _ (NewPaymentV2 _) => Construct
  | existT _ _ (SignPaymentV2 _ _) => Sign
  end.

Definition steps (t : list call) : list step := map step_of t.

(** The argument of a [new PaymentV2] call. *)
Definition paymentOptionsOf (c : call) : option (PaymentOptions Address) :=
  match c with
  | existT _ _ (NewPaymentV2 o) => Some o
  | _ => None
  end.

(** The argument of a [new TokenBurnV1] call. *)
Definition burnOptionsOf (c : call) : option (TokenBurnOptions Address) :=
  match c with
  | existT _ _ (NewTokenBurnV1 o) => Some o
  | _ => None
  end.

Fixpoint filter_map {A B : Type} (f : A -> option B) (xs : list A) : list B :=
  match xs with
  | [] => []
  | x :: rest =>
      match f x with
      | Some y => y :: filter_map f rest
      | None => filter_map f rest
      end
  end.

(** Everything handed to [new PaymentV2] during a run. *)
Definition constructedPayments (t : list call) : list (PaymentOptions Address) :=
  filter_map paymentOptionsOf t.

(** Everything handed to [new TokenBurnV1] during a run. *)
Definition constructedBurns (t : list call) : list (TokenBurnOptions Address) :=
  filter_map burnOptionsOf t.

End TransactionHook.

(** ** Vocabulary for the statements *)

Section Vocabulary.

Context `{Sdk} `{MemoInput} {World : Type} (h : handler World).

(** No collaborator call rejects. *)
Definition quiet : Prop :=
  forall (X : Type) (c : sdkE X) (w : World), exists x, fst (h c w) = inr x.

(** [Address.fromB58] accepts the string. *)
Definition decodes (s : string) : Prop :=
  exists a, Address_fromB58 s = inr a.

(** [Address.isValid] only accepts what [Address.fromB58] decodes. *)
Definition isValid_sound : Prop :=
  forall s, Address_isValid s = true -> decodes s.

(** The module-level constant was initialised. *)
Definition dummy_loaded : Prop :=
  exists a, EMPTY_B58_ADDRESS = inr a.

(** [sign] resolves to a transaction with the same type, payments, payer,
    nonce and fee as the one it was called on. *)
Definition sign_keeps_fields : Prop :=
  forall (txn signed : PaymentV2) (k : Keypair) (w w' : World),
    h (SignPaymentV2 txn k) w = (inr signed, w') ->
    PaymentV2_type signed = PaymentV2_type txn /\
    PaymentV2_payments signed = PaymentV2_payments txn /\
    PaymentV2_payer signed = PaymentV2_payer txn /\
    PaymentV2_nonce signed = PaymentV2_nonce txn /\
    PaymentV2_fee signed = PaymentV2_fee txn.

(** [!currentAccount?.address] *)
Definition address_unset (hook : HookState) : Prop :=
  currentAddress hook = None \/ currentAddress hook = Some "".

(** [makeBurnTxn] reconfigures the SDK when both optional arguments are
    truthy. *)
Definition configures (a : BurnArgs) : bool :=
  truthy_onumber (dcPayloadSize a) && truthy_onumber (txnFeeMultiplier a).

(** The payee [calculatePaymentTxnFee] uses for a payment detail. *)
Definition usable_payee (d : SendDetails) : bool :=
  truthy_string (sd_payee d) && Address_isValid (sd_payee d).

(** Spec wording: every operation fetches a keypair, fetches account
    state, constructs a transaction and signs it. *)
Definition spec_steps : list step :=
  [FetchKeypair; FetchAccountState; Construct; Sign].


(** Spec wording: the two conditions under which a helper may throw,
    read off the world the helper starts in. *)
Definition spec_missing_keypair (w : World) : Prop :=
  fst (h GetKeypair w) = inr None.

Definition spec_missing_nonce (w : World) : Prop :=
  forall res, fst (h FetchAccount (snd (h GetKeypair w))) = inr res ->
              speculativeNonceOf (data res) = None.

End Vocabulary.

(** ** The network colour hook *)

Section NetworkColor.

(** [NetTypes.TESTNET] of [@helium/address]; its value plays no role. *)
Variable TESTNET : number.

(** The argument object of the hook. *)
Record ColorArgs : Type := mkColorArgs {
  defaultColor : option string;
  netType : option number;
  muted : option bool
}.

(** [netType === NetTypes.TESTNET] *)
Definition is_testnet (n : option number) : bool :=
  match n with
  | Some n => Z.eqb n TESTNET
  | None => false
  end.

(** Truthiness of an optional boolean. *)
Definition truthy_obool (b : option bool) : bool :=
  match b with
  | Some b => b
  | None => false
  end.

(** The memoised callback of the default export; [l1Network] comes from
    [useAppStorage], and the dependency array lists every input, so the
    memoised value is the callback's value.  [None] is [undefined]. *)
Definition useNetworkColor (l1Network : string) (a : ColorArgs) : option string :=
  if is_testnet (netType a) then
    if truthy_obool (muted a) then Some "lividBrown" else Some "testnet"
  else if String.eqb l1Network "solana" then Some "solanaPurple"
  else
    match defaultColor a with
    | Some c => if truthy_string c then Some c else None
    | None => None
    end.

End NetworkColor.

(** ** A reference instance of the collaborators

    Used to run the helpers on concrete inputs.  Addresses are kept in
    their base58 text form, transactions are the options they were built
    from plus a fee and a signature, and [sign] fills in the signature. *)

Module Reference.

Definition base58_alphabet : string :=
  "123456789ABCDEFGHJKLMNPQRSTUVWXYZabcdefghijkmnopqrstuvwxyz".

Fixpoint mem_char (c : ascii) (s : string) : bool :=
  match s with
  | EmptyString => false
  | String c' rest => Ascii.eqb c c' || mem_char c rest
  end.

Fixpoint all_base58 (s : string) : bool :=
  match s with
  | EmptyString => true
  | String c rest => mem_char c base58_alphabet && all_base58 rest
  end.

(** A stand-in for the checksum test: non-empty base58 text. *)
Definition isValid (s : string) : bool :=
  truthy_string s && all_base58 s.

Definition fromB58 (s : string) : exn + string :=
  if isValid s then inr s else inl (Error "invalid address").

Record RKeypair : Type := mkRKeypair {
  kp_address : string;
  kp_secret : string
}.

Record RTokenBurnV1 : Type := mkRTokenBurnV1 {
  burn_opts : TokenBurnOptions string;
  burn_fee : option number;
  burn_signature : option string
}.

Record RPaymentV2 : Type := mkRPaymentV2 {
  pay_opts : PaymentOptions string;
  pay_fee : option number;
  pay_signature : option string
}.

Record RBalance : Type := mkRBalance {
  integerBalance : number;
  currency : CurrencyType
}.

#[export] Instance sdk : Sdk :=
  {| Address := string;
     Keypair := RKeypair;
     TokenBurnV1 := RTokenBurnV1;
     PaymentV2 := RPaymentV2;
     Balance := RBalance;
     Address_fromB58 := fromB58;
     Address_isValid := isValid;
     Address_b58 := fun a => a;
     Keypair_address := kp_address;
     Balance_integerBalance := integerBalance;
     Balance_new := mkRBalance;
     PaymentV2_type := fun _ => "payment_v2";
     PaymentV2_payments := fun t => po_payments (pay_opts t);
     PaymentV2_payer := fun t => Some (po_payer (pay_opts t));
     PaymentV2_nonce := fun t => Some (po_nonce (pay_opts t));
     PaymentV2_fee := pay_fee |}.

(** Base64 of the character codes, one admissible memo encoder. *)
Definition base64_alphabet : string :=
  "ABCDEFGHIJKLMNOPQRSTUVWXYZabcdefghijklmnopqrstuvwxyz0123456789+/".

Definition sextet (n : N) : string :=
  match String.get (N.to_nat (N.modulo n 64)) base64_alphabet with
  | Some c => String c EmptyString
  | None => EmptyString
  end.

Fixpoint base64 (bytes : list N) : string :=
  match bytes with
  | [] => ""
  | [a] =>
      let n := (a * 65536)%N in
      sextet (n / 262144) ++ sextet (n / 4096) ++ "=="
  | [a; b] =>
      let n := (a * 65536 + b * 256)%N in
      sextet (n / 262144) ++ sextet (n / 4096) ++ sextet (n / 64) ++ "="
  | a :: b :: c :: rest =>
      let n := (a * 65536 + b * 256 + c)%N in
      sextet (n / 262144) ++ sextet (n / 4096) ++ sextet (n / 64) ++ sextet n
             ++ base64 rest
  end.

#[export] Instance memoInput : MemoInput :=
  {| encodeMemoString := fun s =>
       if truthy_string s
       then Some (base64 (map N_of_ascii (list_ascii_of_string s)))
       else None |}.

(** The world: what the key store holds, what the network answers, and
    the SDK's static fee configuration (unset until configured). *)
Record World : Type := mkWorld {
  w_keypair : option RKeypair;
  w_account : QueryResult;
  w_config : option TxnConfig
}.

(** A fee exists once the SDK is configured. *)
Definition feeFor (w : World) (size : number) : option number :=
  match w_config w with
  | Some c => Some (cfg_txnFeeMultiplier c * size)
  | None => None
  end.

Definition signature_of (k : RKeypair) : string :=
  "signed:" ++ kp_address k.

Definition handle : handler World :=
  fun X c =>
    match c in sdkE X return World -> (exn + X) * World with
    | GetKeypair => fun w => (inr (w_keypair w), w)
    | FetchAccount => fun w => (inr (w_account w), w)
    | TransactionConfig c =>
        fun w => (inr tt, {| w_keypair := w_keypair w;
                             w_account := w_account w;
                             w_config := Some c |})
    | NewTokenBurnV1 o =>
        fun w => (inr {| burn_opts := o;
                         burn_fee := feeFor w 1;
                         burn_signature := None |}, w)
    | SignTokenBurnV1 t k =>
        fun w => (inr {| burn_opts := burn_opts t;
                         burn_fee := burn_fee t;
                         burn_signature := Some (signature_of k) |}, w)
    | NewPaymentV2 o =>
        fun w => (inr {| pay_opts := o;
                         pay_fee := feeFor w (1 + Z.of_nat (length (po_payments o)));
                         pay_signature := None |}, w)
    | SignPaymentV2 t k =>
        fun w => (inr {| pay_opts := pay_opts t;
                         pay_fee := pay_fee t;
                         pay_signature := Some (signature_of k) |}, w)
    end.

(** Concrete inputs. *)
Definition alice : string := "13M8dUbxymE3xtiAXszRkGMmezMhBS8Li7wEsMojLdb4Sdxc4wc".
Definition bob : string := "14sKWeeYWQWrBSnLGq79uRQqZyw3Ldi7oBdxbF6a54QboTNBXDL".

Definition keys : RKeypair := {| kp_address := bob; kp_secret := "s3cret" |}.

Definition account7 : QueryResult :=
  {| data := Some {| account := Some {| nonce := Some 6; speculativeNonce := Some 7 |} |} |}.

Definition noNonce : QueryResult :=
  {| data := Some {| account := Some {| nonce := None; speculativeNonce := None |} |} |}.

Definition world : World :=
  {| w_keypair := Some keys;
     w_account := account7;
     w_config := Some {| cfg_dcPayloadSize := 24; cfg_txnFeeMultiplier := 5000 |} |}.

Definition lockedWorld : World :=
  {| w_keypair := None; w_account := account7; w_config := None |}.

Definition staleWorld : World :=
  {| w_keypair := Some keys; w_account := noNonce; w_config := None |}.

Definition hook : HookState :=
  {| currentAccount := Some {| address := bob |};
     accountData := data account7 |}.

Definition coldHook : HookState :=
  {| currentAccount := Some {| address := bob |}; accountData := None |}.

Definition noAccountHook : HookState :=
  {| currentAccount := None; accountData := data account7 |}.

Definition toAlice : SendDetails :=
  {| sd_payee := alice;
     sd_balanceAmount := {| integerBalance := 250; currency := networkToken |};
     sd_memo := "hi" |}.

Definition toNobody : SendDetails :=
  {| sd_payee := "";
     sd_balanceAmount := {| integerBalance := 40; currency := networkToken |};
     sd_memo := "hi" |}.

Definition burn : BurnArgs :=
  {| payeeB58 := alice;
     burn_amount := 10;
     burn_nonce := 3;
     burn_memo := "AAAAAAAAAAA=";
     dcPayloadSize := None;
     txnFeeMultiplier := None |}.

Definition burnConfigured : BurnArgs :=
  {| payeeB58 := alice;
     burn_amount := 10;
     burn_nonce := 3;
     burn_memo := "AAAAAAAAAAA=";
     dcPayloadSize := Some 24;
     txnFeeMultiplier := Some 5000 |}.

End Reference.


(** ** The hook's queries and further views of a trace *)

Section HookQueries.

Context `{Sdk}.

(** [address: currentAccount?.address || ''], the variable both account
    queries are keyed by. *)
Definition accountQueryAddress (hook : HookState) : string :=
  match currentAddress hook with
  | Some a => if truthy_string a then a else ""
  | None => ""
  end.

(** [skip: !currentAccount?.address || !clientReady] of the cache-only
    account query. *)
Definition accountQuerySkip (hook : HookState) (clientReady : bool) : bool :=
  negb (match currentAddress hook with
        | Some a => truthy_string a
        | None => false
        end)
  || negb clientReady.


(** The receiver and the [payer] option of a [PaymentV2] [sign] call. *)
Definition paymentSigningOf (c : call) : option (PaymentV2 * Keypair) :=
  match c with
  | existT _ _ (SignPaymentV2 t k) => Some (t, k)
  | _ => None
  end.

(** The receiver and the [payer] option of a [TokenBurnV1] [sign] call. *)
Definition burnSigningOf (c : call) : option (TokenBurnV1 * Keypair) :=
  match c with
  | existT _ _ (SignTokenBurnV1 t k) => Some (t, k)
  | _ => None
  end.


(** Every [sign] call of a run. *)
Definition paymentSignings (t : list call) : list (PaymentV2 * Keypair) :=
  filter_map paymentSigningOf t.

Definition burnSignings (t : list call) : list (TokenBurnV1 * Keypair) :=
  filter_map burnSigningOf t.

(** [fee || 0] read as a plain number. *)
Definition feeOrZero (o : option number) : number :=
  match o with
  | Some f => f
  | None => 0
  end.

(** The error of the collaborator call that rejected during the run, if
    one did; the calls are made in the worlds the run goes through. *)
Fixpoint rejectedCall {World R : Type} (h : handler World) (p : prog R)
         (w : World) : option exn :=
  match p with
  | Ret _ => None
  | Throw _ => None
  | Call c k =>
      match h _ c w with
      | (inl e, _) => Some e
      | (inr x, w') => rejectedCall h (k x) w'
      end
  end.

(** [new PaymentV2] does not reject. *)
Definition constructor_resolves {World : Type} (h : handler World) : Prop :=
  forall (o : PaymentOptions Address) (w : World),
    exists txn, fst (h _ (NewPaymentV2 o) w) = inr txn.

(** [PaymentV2]'s [sign] does not reject. *)
Definition sign_resolves {World : Type} (h : handler World) : Prop :=
  forall (t : PaymentV2) (k : Keypair) (w : World),
    exists signed, fst (h _ (SignPaymentV2 t k) w) = inr signed.

(** [Address.fromB58] throws on the string. *)
Definition refused (s : string) : Prop :=
  exists e, Address_fromB58 s = inl e.

(** The query result carries the number [n] as
    [data.account.speculativeNonce]. *)
Definition numeric_speculativeNonce (res : QueryResult) (n : number) : Prop :=
  exists q a,
    data res = Some q /\ account q = Some a /\ speculativeNonce a = Some n.

End HookQueries.

(** Further concrete inputs for the reference collaborators. *)

Module Samples.

Import Reference.

Definition burnToNobody : BurnArgs :=
  {| payeeB58 := "not an address";
     burn_amount := 10;
     burn_nonce := 3;
     burn_memo := "AAAAAAAAAAA=";
     dcPayloadSize := Some 24;
     txnFeeMultiplier := Some 5000 |}.


Definition toBob : SendDetails :=
  {| sd_payee := bob;
     sd_balanceAmount := {| integerBalance := 75; currency := networkToken |};
     sd_memo := "" |}.

Definition emptyAddressHook : HookState :=
  {| currentAccount := Some {| address := "" |};
     accountData := data account7 |}.

Definition refusedAddressHook : HookState :=
  {| currentAccount := Some {| address := "not an address" |};
     accountData := data account7 |}.

Definition coldRefusedAddressHook : HookState :=
  {| currentAccount := Some {| address := "not an address" |};
     accountData := None |}.

(** The reference collaborators without a network: the account fetch
    rejects. *)
Definition offline : handler World :=
  fun X c =>
    match c in sdkE X return World -> (exn + X) * World with
    | FetchAccount => fun w => (inl (Error "Network request failed"), w)
    | other => handle other
    end.

End Samples.

(** * Facts *)

(** ** Running bodies *)

Section RunFacts.

Context `{Sdk} {World : Type} (h : handler World).

Lemma run_call_rejects (R X : Type) (c : sdkE X) (k : X -> prog R)
      (w w' : World) (e : exn) :
  h c w = (inl e, w') ->
  run h (Call c k) w =
    {| trace := [existT _ _ c]; outcome := inl e; final := w' |}.
Proof. intros E. simpl. rewrite E. reflexivity. Qed.

Lemma run_call_resolves (R X : Type) (c : sdkE X) (k : X -> prog R)
      (w w' : World) (x : X) :
  h c w = (inr x, w') ->
  run h (Call c k) w =
    {| trace := existT _ _ c :: trace (run h (k x) w');
       outcome := outcome (run h (k x) w');
       final := final (run h (k x) w') |}.
Proof. intros E. simpl. rewrite E. reflexivity. Qed.

(** A quiet collaborator resolves every call. *)
Lemma quiet_resolves (X : Type) (c : sdkE X) (w : World) :
  quiet h -> exists x w', h c w = (inr x, w').
Proof.
  intros Q. destruct (Q X c w) as [x Hx].
  destruct (h c w) as [r w'] eqn:E. simpl in Hx. subst r.
  exists x, w'. reflexivity.
Qed.

(** Sequencing: the second body runs in the world the first one left,
    unless the first one rejected. *)
Lemma run_bind (A B : Type) (p : prog A) (f : A -> prog B) (w : World) :
  run h (bind_prog p f) w =
    match outcome (run h p w) with
    | inl e =>
        {| trace := trace (run h p w); outcome := inl e;
           final := final (run h p w) |}
    | inr a =>
        {| trace := trace (run h p w) ++ trace (run h (f a) (final (run h p w)));
           outcome := outcome (run h (f a) (final (run h p w)));
           final := final (run h (f a) (final (run h p w))) |}
    end.
Proof.
  revert w. induction p as [a | e | X c k IH]; intros w; simpl.
  - destruct (run h (f a) w); reflexivity.
  - reflexivity.
  - destruct (h c w) as [[e | x] w']; simpl.
    + reflexivity.
    + rewrite IH. destruct (outcome (run h (k x) w')); reflexivity.
Qed.

End RunFacts.

(** ** [map] with a throwing callback *)

Section MapFacts.

Variables A B : Type.
Variable f : A -> exn + B.

Lemma map_throwing_Forall2 (xs : list A) (ys : list B) :
  map_throwing f xs = inr ys -> Forall2 (fun x y => f x = inr y) xs ys.
Proof.
  revert ys. induction xs as [| x rest IH]; intros ys E; simpl in E.
  - inversion E. constructor.
  - destruct (f x) as [e | y] eqn:Fx; [discriminate |].
    destruct (map_throwing f rest) as [e | ys'] eqn:Fr; [discriminate |].
    inversion E; subst. constructor; auto.
Qed.

Lemma map_throwing_total (xs : list A) :
  Forall (fun x => exists y, f x = inr y) xs ->
  exists ys, map_throwing f xs = inr ys.
Proof.
  induction 1 as [| x rest [y Hy] _ [ys Hys]]; simpl.
  - exists []. reflexivity.
  - rewrite Hy, Hys. exists (y :: ys). reflexivity.
Qed.

End MapFacts.

(** ** The helpers *)

Unset Implicit Arguments.

Section HelperFacts.

Context `{Sdk} `{MemoInput} {World : Type} (h : handler World).

(** Case analysis on the next collaborator call of a run. *)
Ltac next_call :=
  match goal with
  | |- context [@h ?X ?c ?w] =>
      let E := fresh "Hcall" in
      destruct (@h X c w) as [[?e | ?x] ?w] eqn:E; cbn
  end.

(** Case analysis on the next throwing expression of a run. *)
Ltac next_eval :=
  match goal with
  | |- context [run h (bind_prog (eval ?r) _) _] =>
      let E := fresh "Heval" in
      destruct r as [?e | ?v] eqn:E; cbn
  end.

(** The next collaborator call resolves, by quietness. *)
Ltac next_resolves Q :=
  match goal with
  | |- context [@h ?X ?c ?w] =>
      let x := fresh "x" in
      let w' := fresh "w" in
      let E := fresh "Hcall" in
      destruct (quiet_resolves c w Q) as [x [w' E]]; rewrite E; cbn
  end.

Lemma paymentOf_inv (d : SendDetails) (p : Payment Address) :
  paymentOf d = inr p ->
  Address_fromB58 (sd_payee d) = inr (payee p) /\
  amount p = Balance_integerBalance (sd_balanceAmount d) /\
  memo p = encodeMemoString (sd_memo d).
Proof.
  unfold paymentOf. destruct (Address_fromB58 (sd_payee d)) as [e | a]; [discriminate |].
  intros E. inversion E; subst. cbn. auto.
Qed.

Lemma feePaymentOf_inv (d : SendDetails) (p : Payment Address) :
  feePaymentOf d = inr p ->
  (if usable_payee d then Address_fromB58 (sd_payee d) else EMPTY_B58_ADDRESS)
    = inr (payee p) /\
  amount p = Balance_integerBalance (sd_balanceAmount d) /\
  memo p = encodeMemoString (sd_memo d).
Proof.
  unfold feePaymentOf, usable_payee.
  destruct (if truthy_string (sd_payee d) && Address_isValid (sd_payee d)
            then Address_fromB58 (sd_payee d) else EMPTY_B58_ADDRESS)
    as [e | a]; [discriminate |].
  intros E. inversion E; subst. cbn. auto.
Qed.

Lemma paymentOf_total (ds : list SendDetails) :
  Forall (fun d => decodes (sd_payee d)) ds ->
  exists pays, map_throwing paymentOf ds = inr pays.
Proof.
  intros D. apply map_throwing_total.
  eapply Forall_impl; [| exact D].
  intros d [a Ha]. unfold paymentOf. rewrite Ha. eauto.
Qed.

Lemma feePaymentOf_total (ds : list SendDetails) :
  isValid_sound -> dummy_loaded ->
  exists pays, map_throwing feePaymentOf ds = inr pays.
Proof.
  intros V [dummy Hd]. apply map_throwing_total.
  apply Forall_forall. intros d _. unfold feePaymentOf.
  destruct (truthy_string (sd_payee d)); cbn.
  - destruct (Address_isValid (sd_payee d)) eqn:Hv.
    + destruct (V _ Hv) as [a Ha]. rewrite Ha. eauto.
    + rewrite Hd. eauto.
  - rewrite Hd. eauto.
Qed.


(** Whatever [makePaymentTxn] hands to [new PaymentV2]. *)
Lemma makePaymentTxn_constructs (ds : list SendDetails) (w : World)
      (o : PaymentOptions Address) :
  In o (constructedPayments (trace (run h (makePaymentTxn ds) w))) ->
  exists kp n pays,
    map_throwing paymentOf ds = inr pays /\
    o = {| po_payer := Keypair_address kp; po_payments := pays; po_nonce := n + 1 |}.
Proof.
  unfold makePaymentTxn. cbn.
  next_call; [tauto |].
  destruct x as [kp |]; cbn; [| tauto].
  next_call; [tauto |].
  destruct (speculativeNonceOf (data x)) as [n |]; cbn; [| tauto].
  next_eval; [tauto |].
  next_call.
  - intros [<- | []]. eauto.
  - next_call; (intros [<- | []]; eauto).
Qed.

(** Whatever [calculatePaymentTxnFee] hands to [new PaymentV2]. *)
Lemma calculatePaymentTxnFee_constructs (hook : HookState) (ds : list SendDetails)
      (w : World) (o : PaymentOptions Address) :
  In o (constructedPayments (trace (run h (calculatePaymentTxnFee hook ds) w))) ->
  exists from pays,
    map_throwing feePaymentOf ds = inr pays /\
    o = {| po_payer := from; po_payments := pays;
           po_nonce := or_number (nonceOf (accountData hook)) 0 + 1 |}.
Proof.
  unfold calculatePaymentTxnFee.
  destruct (currentAddress hook) as [addr |]; cbn; [| tauto].
  destruct (truthy_string addr); cbn; [| tauto].
  next_eval; [tauto |].
  next_eval; [tauto |].
  next_call; (intros [<- | []]; eauto).
Qed.


Lemma makePaymentTxn_constructs_once (ds : list SendDetails) (w : World)
      (r : PaymentResult) :
  outcome (run h (makePaymentTxn ds) w) = inr r ->
  exists o, constructedPayments (trace (run h (makePaymentTxn ds) w)) = [o].
Proof.
  unfold makePaymentTxn. cbn.
  next_call; [discriminate |].
  destruct x as [kp |]; cbn; [| discriminate].
  next_call; [discriminate |].
  destruct (speculativeNonceOf (data x)) as [n |]; cbn; [| discriminate].
  next_eval; [discriminate |].
  next_call; [discriminate |].
  next_call; [discriminate |].
  intros _. eexists. reflexivity.
Qed.

Lemma calculatePaymentTxnFee_constructs_once (hook : HookState)
      (ds : list SendDetails) (w : World) (r : Balance) :
  outcome (run h (calculatePaymentTxnFee hook ds) w) = inr r ->
  exists o,
    constructedPayments (trace (run h (calculatePaymentTxnFee hook ds) w)) = [o].
Proof.
  unfold calculatePaymentTxnFee.
  destruct (currentAddress hook) as [addr |]; cbn; [| discriminate].
  destruct (truthy_string addr); cbn; [| discriminate].
  next_eval; [discriminate |].
  next_eval; [discriminate |].
  next_call; [discriminate |].
  intros _. eexists. reflexivity.
Qed.

(** *** When the helpers reject *)

Lemma makeBurnTxn_throws_iff (a : BurnArgs) (w : World) :
  quiet h -> decodes (payeeB58 a) ->
  (throws (run h (makeBurnTxn a) w) <-> spec_missing_keypair h w).
Proof.
  intros Q [to Hto]. unfold throws, spec_missing_keypair, makeBurnTxn. cbn.
  next_resolves Q. destruct x as [kp |]; cbn.
  - rewrite Hto. cbn.
    assert (G : forall w1,
               ~ exists e, outcome (run h
                 (Call (NewTokenBurnV1
                          {| tb_payer := Keypair_address kp; tb_payee := to;
                             tb_amount := burn_amount a; tb_nonce := burn_nonce a;
                             tb_memo := burn_memo a |})
                       (fun t => Call (SignTokenBurnV1 t kp) (fun s => Ret s))) w1)
                 = inl e).
    { intros w1. cbn. next_resolves Q. next_resolves Q. intros [e He]. discriminate. }
    split; [| discriminate].
    destruct (dcPayloadSize a) as [size |], (txnFeeMultiplier a) as [mult |]; cbn.
    all: try (destruct (truthy_number size); cbn).
    all: try (destruct (truthy_number mult); cbn).
    all: try (intros Hthrow; destruct (G _ Hthrow)).
    next_resolves Q. intros Hthrow; destruct (G _ Hthrow).
  - split; eauto.
Qed.

Lemma makePaymentTxn_throws_iff (ds : list SendDetails) (w : World) :
  quiet h -> Forall (fun d => decodes (sd_payee d)) ds ->
  (throws (run h (makePaymentTxn ds) w)
   <-> spec_missing_keypair h w \/ spec_missing_nonce h w).
Proof.
  intros Q D. destruct (paymentOf_total ds D) as [pays Hpays].
  unfold throws, spec_missing_keypair, spec_missing_nonce, makePaymentTxn. cbn.
  next_resolves Q. destruct x as [kp |]; cbn.
  - next_resolves Q.
    destruct (speculativeNonceOf (data x)) as [n |] eqn:Hn; cbn.
    + rewrite Hpays. cbn. next_resolves Q. next_resolves Q.
      split.
      * intros [e He]. discriminate.
      * intros [Hk | Hm]; [discriminate |].
        specialize (Hm _ eq_refl). congruence.
    + split; [| eauto]. intros _. right. intros res Hres.
      inversion Hres; subst. exact Hn.
  - split; eauto.
Qed.

Lemma calculatePaymentTxnFee_throws_iff (hook : HookState) (ds : list SendDetails)
      (w : World) :
  quiet h -> isValid_sound -> dummy_loaded ->
  (forall s, currentAddress hook = Some s -> s <> "" -> decodes s) ->
  (throws (run h (calculatePaymentTxnFee hook ds) w) <-> address_unset hook).
Proof.
  intros Q V Dm Hs. destruct (feePaymentOf_total ds V Dm) as [pays Hpays].
  unfold throws, address_unset, calculatePaymentTxnFee.
  destruct (currentAddress hook) as [addr |]; cbn.
  - unfold truthy_string. destruct (String.eqb_spec addr ""); cbn.
    + subst. split; eauto.
    + destruct (Hs addr eq_refl n) as [from Hfrom]. rewrite Hfrom, Hpays. cbn.
      next_resolves Q. split.
      * intros [e He]. discriminate.
      * intros [Hu | Hu]; [discriminate | congruence].
  - split; eauto.
Qed.

(** *** Claims about the helpers *)

(** C1 (as amended): the helpers' own throw statements cover three
    conditions, not two.  With collaborators that do not reject and
    addresses that decode, [makeBurnTxn] rejects exactly when the key store
    yields no keypair, [makePaymentTxn] exactly when the key store yields no
    keypair or the fetched account carries no numeric speculative nonce, and
    [calculatePaymentTxnFee] exactly when the current account address is
    unset. *)
Theorem throw_conditions (hook : HookState) (a : BurnArgs)
        (ds : list SendDetails) (w : World) :
  quiet h -> isValid_sound -> dummy_loaded ->
  decodes (payeeB58 a) ->
  Forall (fun d => decodes (sd_payee d)) ds ->
  (forall s, currentAddress hook = Some s -> s <> "" -> decodes s) ->
  (throws (run h (makeBurnTxn a) w) <-> spec_missing_keypair h w) /\
  (throws (run h (makePaymentTxn ds) w)
   <-> spec_missing_keypair h w \/ spec_missing_nonce h w) /\
  (throws (run h (calculatePaymentTxnFee hook ds) w) <-> address_unset hook).
Proof.
  intros Q V Dm Da Dds Dh. split; [| split].
  - apply makeBurnTxn_throws_iff; assumption.
  - apply makePaymentTxn_throws_iff; assumption.
  - apply calculatePaymentTxnFee_throws_iff; assumption.
Qed.


(** C3 (as amended): only [makePaymentTxn] takes the four steps fetch
    keypair, fetch account state, construct, sign.  A successful
    [makeBurnTxn] fetches the keypair, optionally reconfigures the SDK,
    constructs and signs, without fetching account state; a successful
    [calculatePaymentTxnFee] only constructs. *)
Theorem steps_of_successful_runs (hook : HookState) (a : BurnArgs)
        (ds : list SendDetails) (w : World) :
  (forall r, outcome (run h (makePaymentTxn ds) w) = inr r ->
             steps (trace (run h (makePaymentTxn ds) w)) = spec_steps) /\
  (forall r, outcome (run h (makeBurnTxn a) w) = inr r ->
             steps (trace (run h (makeBurnTxn a) w)) =
               FetchKeypair :: (if configures a then [Configure] else [])
                            ++ [Construct; Sign]) /\
  (forall r, outcome (run h (calculatePaymentTxnFee hook ds) w) = inr r ->
             steps (trace (run h (calculatePaymentTxnFee hook ds) w)) = [Construct]).
Proof.
  split; [| split]; intros r.
  - unfold makePaymentTxn. cbn.
    next_call; [discriminate |].
    destruct x as [kp |]; cbn; [| discriminate].
    next_call; [discriminate |].
    destruct (speculativeNonceOf (data x)) as [n |]; cbn; [| discriminate].
    next_eval; [discriminate |].
    next_call; [discriminate |].
    next_call; [discriminate |].
    reflexivity.
  - unfold makeBurnTxn, configures. cbn.
    next_call; [discriminate |].
    destruct x as [kp |]; cbn; [| discriminate].
    next_eval; [discriminate |].
    destruct (dcPayloadSize a) as [size |], (txnFeeMultiplier a) as [mult |]; cbn.
    all: try destruct (truthy_number size); try destruct (truthy_number mult); cbn.
    all: repeat (next_call; [discriminate |]); reflexivity.
  - unfold calculatePaymentTxnFee.
    destruct (currentAddress hook) as [addr |]; cbn; [| discriminate].
    destruct (truthy_string addr); cbn; [| discriminate].
    next_eval; [discriminate |].
    next_eval; [discriminate |].
    next_call; [discriminate |].
    reflexivity.
Qed.

(** C4: when [sign] leaves type, payments, payer, nonce and fee as they
    were, the partial record returned by a successful [makePaymentTxn]
    mirrors the signed transaction returned with it, field by field,
    although the record is captured before [sign] is called. *)
Theorem partialTxn_mirrors_signedTxn (ds : list SendDetails) (w : World)
        (r : PaymentResult) :
  sign_keeps_fields h ->
  outcome (run h (makePaymentTxn ds) w) = inr r ->
  type (partialTxn r) = PaymentV2_type (signedTxn r) /\
  payments (partialTxn r) =
    map (fun p => {| pp_payee := Address_b58 (payee p);
                     pp_memo := memo p;
                     pp_amount := amount p |})
        (PaymentV2_payments (signedTxn r)) /\
  payer (partialTxn r) = option_map Address_b58 (PaymentV2_payer (signedTxn r)) /\
  ptx_nonce (partialTxn r) = PaymentV2_nonce (signedTxn r) /\
  fee (partialTxn r) = PaymentV2_fee (signedTxn r).
Proof.
  intros K. unfold makePaymentTxn. cbn.
  next_call; [discriminate |].
  destruct x as [kp |]; cbn; [| discriminate].
  next_call; [discriminate |].
  destruct (speculativeNonceOf (data x)) as [n |]; cbn; [| discriminate].
  next_eval; [discriminate |].
  next_call; [discriminate |].
  next_call; [discriminate |].
  intros E. inversion E; subst r. cbn.
  destruct (K _ _ _ _ _ Hcall2) as [Kt [Kp [Ky [Kn Kf]]]].
  rewrite Kt, Kp, Ky, Kn, Kf. repeat split.
Qed.

(** C7: when the key store yields no keypair, [makeBurnTxn] and
    [makePaymentTxn] reject with [missing keypair]; the key store was asked
    once and nothing else was called (no account fetch, no constructor, no
    signing, no second attempt). *)
Theorem missing_keypair_rejects_first (a : BurnArgs) (ds : list SendDetails)
        (w w' : World) :
  h _ GetKeypair w = (inr None, w') ->
  run h (makeBurnTxn a) w =
    {| trace := [existT _ _ GetKeypair];
       outcome := inl (Error "missing keypair");
       final := w' |} /\
  run h (makePaymentTxn ds) w =
    {| trace := [existT _ _ GetKeypair];
       outcome := inl (Error "missing keypair");
       final := w' |}.
Proof.
  intros Hk. unfold makeBurnTxn, makePaymentTxn. cbn. rewrite Hk. cbn.
  split; reflexivity.
Qed.


End HelperFacts.

(** ** The colour hook *)

Section NetworkColorFacts.

Variable TESTNET : number.

(** C10: a testnet [netType] wins over everything else ([lividBrown] when
    muted, [testnet] otherwise, whatever [l1Network] and [defaultColor]
    are); otherwise [l1Network = solana] gives [solanaPurple] whatever
    [defaultColor] is; and when neither applies and no [defaultColor] is
    given the hook returns [undefined]. *)
Theorem network_color_precedence (l1Network : string) (a : ColorArgs) :
  (netType a = Some TESTNET -> muted a = Some true ->
   useNetworkColor TESTNET l1Network a = Some "lividBrown") /\
  (netType a = Some TESTNET -> muted a <> Some true ->
   useNetworkColor TESTNET l1Network a = Some "testnet") /\
  (netType a <> Some TESTNET -> l1Network = "solana" ->
   useNetworkColor TESTNET l1Network a = Some "solanaPurple") /\
  (netType a <> Some TESTNET -> l1Network <> "solana" -> defaultColor a = None ->
   useNetworkColor TESTNET l1Network a = None).
Proof.
  assert (T : netType a <> Some TESTNET -> is_testnet TESTNET (netType a) = false).
  { unfold is_testnet. destruct (netType a) as [n |]; [| reflexivity].
    intros Hn. destruct (Z.eqb_spec n TESTNET); [congruence | reflexivity]. }
  unfold useNetworkColor. repeat split.
  - intros -> ->. cbn. rewrite Z.eqb_refl. reflexivity.
  - intros -> Hm. cbn. rewrite Z.eqb_refl.
    destruct (muted a) as [[|] |]; cbn; congruence.
  - intros Hn ->. rewrite (T Hn). reflexivity.
  - intros Hn Hl ->. rewrite (T Hn).
    destruct (String.eqb_spec l1Network "solana"); [contradiction | reflexivity].
Qed.

End NetworkColorFacts.

(** ** The reference collaborators *)

Section ReferenceFacts.

Import Reference.

Lemma reference_quiet : quiet handle.
Proof. intros X c w. destruct c; cbn; eauto. Qed.

Lemma reference_sign_keeps_fields : sign_keeps_fields handle.
Proof.
  intros txn signed k w w' E. cbn in E. inversion E; subst. cbn. repeat split.
Qed.

Lemma reference_isValid_sound : isValid_sound.
Proof.
  intros s Hs. exists s. cbn. unfold fromB58. cbn in Hs. rewrite Hs. reflexivity.
Qed.

Lemma reference_dummy_loaded : dummy_loaded.
Proof. eexists. vm_compute. reflexivity. Qed.

Lemma reference_stored_address_decodes (s : string) :
  currentAddress hook = Some s -> s <> "" -> decodes s.
Proof. intros E _. inversion E; subst. eexists. vm_compute. reflexivity. Qed.

(** The reference encoder changes the memo text. *)
Example memo_hi_encoded : encodeMemoString "hi" = Some "aGk=".
Proof. reflexivity. Qed.

(** *** Where the spec's wording and the code part *)

(** C1, counterexample: with a keypair in the key store and a numeric
    speculative nonce on the network, [calculatePaymentTxnFee] still rejects
    when no current account is set. *)
Lemma fee_estimate_rejects_outside_both_conditions :
  ~ spec_missing_keypair handle world /\
  ~ spec_missing_nonce handle world /\
  outcome (run handle (calculatePaymentTxnFee noAccountHook [toAlice]) world)
  = inl (Error "Cannot calculate payment txn fee. Current account not found").
Proof.
  split; [| split].
  - unfold spec_missing_keypair. cbn. discriminate.
  - unfold spec_missing_nonce. cbn. intros Hm.
    specialize (Hm _ eq_refl). discriminate.
  - reflexivity.
Qed.


(** C3, counterexample: a successful [makeBurnTxn] never fetches account
    state, and a successful [calculatePaymentTxnFee] neither fetches a
    keypair or account state nor signs. *)
Lemma burn_and_fee_estimate_skip_steps :
  steps (trace (run handle (makeBurnTxn burn) world))
  = [FetchKeypair; Construct; Sign] /\
  steps (trace (run handle (makeBurnTxn burn) world)) <> spec_steps /\
  steps (trace (run handle (calculatePaymentTxnFee hook [toAlice]) world))
  = [Construct] /\
  steps (trace (run handle (calculatePaymentTxnFee hook [toAlice]) world))
  <> spec_steps /\
  ~ throws (run handle (makeBurnTxn burn) world) /\
  ~ throws (run handle (calculatePaymentTxnFee hook [toAlice]) world).
Proof.
  repeat split; try reflexivity; try (vm_compute; discriminate).
  - intros [e He]. vm_compute in He. discriminate.
  - intros [e He]. vm_compute in He. discriminate.
Qed.

(** *** The claims on concrete inputs *)

Lemma throw_conditions_witness :
  quiet handle /\ isValid_sound /\ dummy_loaded /\
  decodes (payeeB58 burn) /\
  Forall (fun d => decodes (sd_payee d)) [toAlice] /\
  (forall s, currentAddress hook = Some s -> s <> "" -> decodes s) /\
  ((throws (run handle (makeBurnTxn burn) world)
    <-> spec_missing_keypair handle world) /\
   (throws (run handle (makePaymentTxn [toAlice]) world)
    <-> spec_missing_keypair handle world \/ spec_missing_nonce handle world) /\
   (throws (run handle (calculatePaymentTxnFee hook [toAlice]) world)
    <-> address_unset hook)).
Proof.
  assert (Da : decodes (payeeB58 burn)) by (eexists; vm_compute; reflexivity).
  assert (Dd : Forall (fun d => decodes (sd_payee d)) [toAlice]).
  { repeat constructor. eexists; vm_compute; reflexivity. }
  repeat (split; [first [exact reference_quiet | exact reference_isValid_sound
                         | exact reference_dummy_loaded | exact Da | exact Dd
                         | exact reference_stored_address_decodes] |]).
  exact (throw_conditions handle hook burn [toAlice] world
           reference_quiet reference_isValid_sound reference_dummy_loaded
           Da Dd reference_stored_address_decodes).
Defined.


Lemma steps_of_successful_runs_witness :
  steps (trace (run handle (makePaymentTxn [toAlice]) world)) = spec_steps /\
  steps (trace (run handle (makeBurnTxn burnConfigured) world))
  = [FetchKeypair; Configure; Construct; Sign] /\
  steps (trace (run handle (calculatePaymentTxnFee hook [toAlice]) world))
  = [Construct].
Proof.
  pose proof (steps_of_successful_runs handle hook burnConfigured [toAlice] world)
    as [Hp [Hb Hf]].
  split; [| split].
  - eapply Hp. vm_compute. reflexivity.
  - eapply Hb. vm_compute. reflexivity.
  - eapply Hf. vm_compute. reflexivity.
Defined.

Lemma partialTxn_mirrors_signedTxn_witness :
  sign_keeps_fields handle /\
  exists r,
    outcome (run handle (makePaymentTxn [toAlice]) world) = inr r /\
    type (partialTxn r) = PaymentV2_type (signedTxn r) /\
    payments (partialTxn r) =
      map (fun p => {| pp_payee := Address_b58 (payee p);
                       pp_memo := memo p;
                       pp_amount := amount p |})
          (PaymentV2_payments (signedTxn r)) /\
    payer (partialTxn r) = option_map Address_b58 (PaymentV2_payer (signedTxn r)) /\
    ptx_nonce (partialTxn r) = PaymentV2_nonce (signedTxn r) /\
    fee (partialTxn r) = PaymentV2_fee (signedTxn r).
Proof.
  split; [exact reference_sign_keeps_fields |].
  destruct (outcome (run handle (makePaymentTxn [toAlice]) world))
    as [e | r] eqn:E; [vm_compute in E; discriminate |].
  exists r. split; [reflexivity |].
  exact (partialTxn_mirrors_signedTxn handle [toAlice] world r
           reference_sign_keeps_fields E).
Defined.

Lemma missing_keypair_rejects_first_witness :
  handle GetKeypair lockedWorld = (inr None, lockedWorld) /\
  run handle (makeBurnTxn burn) lockedWorld =
    {| trace := [existT _ _ GetKeypair];
       outcome := inl (Error "missing keypair");
       final := lockedWorld |} /\
  run handle (makePaymentTxn [toAlice]) lockedWorld =
    {| trace := [existT _ _ GetKeypair];
       outcome := inl (Error "missing keypair");
       final := lockedWorld |}.
Proof.
  split; [reflexivity |].
  exact (missing_keypair_rejects_first handle burn [toAlice]
           lockedWorld lockedWorld eq_refl).
Defined.


Lemma network_color_precedence_witness :
  useNetworkColor 16 "solana"
    {| defaultColor := Some "primaryText"; netType := Some 16; muted := Some true |}
  = Some "lividBrown" /\
  useNetworkColor 16 "solana"
    {| defaultColor := Some "primaryText"; netType := Some 16; muted := None |}
  = Some "testnet" /\
  useNetworkColor 16 "solana"
    {| defaultColor := Some "primaryText"; netType := Some 0; muted := None |}
  = Some "solanaPurple" /\
  useNetworkColor 16 "helium"
    {| defaultColor := None; netType := None; muted := None |}
  = None.
Proof.
  split; [| split; [| split]].
  - apply (network_color_precedence 16 "solana"); reflexivity.
  - apply (network_color_precedence 16 "solana"); [reflexivity | discriminate].
  - apply (network_color_precedence 16 "solana"); [discriminate | reflexivity].
  - apply (network_color_precedence 16 "helium"); [discriminate | discriminate | reflexivity].
Defined.

End ReferenceFacts.

(** * Further facts read off the source *)

(** ** [map] with a throwing callback, continued *)

Section MapFactsMore.

Variables A B : Type.

Lemma map_throwing_rejects (f : A -> exn + B) (xs : list A) (e : exn) :
  map_throwing f xs = inl e -> exists x, In x xs /\ f x = inl e.
Proof.
  induction xs as [| x rest IH]; simpl; [discriminate |].
  destruct (f x) as [e' | y] eqn:Fx.
  - intros E. inversion E; subst. exists x. auto.
  - destruct (map_throwing f rest) as [e' | ys]; [| discriminate].
    intros E. inversion E; subst. destruct (IH eq_refl) as [x' [Hin Hx']].
    exists x'. auto.
Qed.

Lemma map_throwing_Exists (f : A -> exn + B) (xs : list A) :
  Exists (fun x => exists e, f x = inl e) xs ->
  exists e, map_throwing f xs = inl e.
Proof.
  induction 1 as [x rest [e He] | x rest _ [e IH]]; simpl.
  - rewrite He. eauto.
  - destruct (f x) as [e' | y]; [eauto |]. rewrite IH. eauto.
Qed.

Lemma map_throwing_ext (f g : A -> exn + B) (xs : list A) :
  (forall x, In x xs -> f x = g x) ->
  map_throwing f xs = map_throwing g xs.
Proof.
  induction xs as [| x rest IH]; simpl; intros E; [reflexivity |].
  rewrite (E x (or_introl eq_refl)), IH; [reflexivity |].
  intros x' Hx'. apply E. right. exact Hx'.
Qed.

End MapFactsMore.

(** ** The helpers, continued *)

Section MoreHelperFacts.

Context `{Sdk} `{MemoInput} {World : Type} (h : handler World).

Ltac next_call :=
  match goal with
  | |- context [@h ?X ?c ?w] =>
      let E := fresh "Hcall" in
      destruct (@h X c w) as [[?e | ?x] ?w] eqn:E; cbn
  end.

Ltac next_eval :=
  match goal with
  | |- context [run h (bind_prog (eval ?r) _) _] =>
      let E := fresh "Heval" in
      destruct r as [?e | ?v] eqn:E; cbn
  end.

Ltac next_resolves Q :=
  match goal with
  | |- context [@h ?X ?c ?w] =>
      let x := fresh "x" in
      let w' := fresh "w" in
      let E := fresh "Hcall" in
      destruct (quiet_resolves c w Q) as [x [w' E]]; rewrite E; cbn
  end.

(** The next call is [new PaymentV2], which resolves. *)
Ltac constructor_resolves_here C :=
  match goal with
  | |- context [@h _ (NewPaymentV2 ?o) ?w] =>
      let x := fresh "txn" in
      let Hx := fresh "Hx" in
      let r := fresh "r" in
      let w' := fresh "w" in
      let E := fresh "Hcall" in
      destruct (C o w) as [x Hx];
      destruct (@h _ (NewPaymentV2 o) w) as [r w'] eqn:E;
      cbn in Hx; subst r; cbn
  end.

(** The next call is [sign], which resolves. *)
Ltac sign_resolves_here S :=
  match goal with
  | |- context [@h _ (SignPaymentV2 ?t ?k) ?w] =>
      let x := fresh "signed" in
      let Hx := fresh "Hx" in
      let r := fresh "r" in
      let w' := fresh "w" in
      let E := fresh "Hcall" in
      destruct (S t k w) as [x Hx];
      destruct (@h _ (SignPaymentV2 t k) w) as [r w'] eqn:E;
      cbn in Hx; subst r; cbn
  end.

Lemma speculativeNonceOf_numeric (res : QueryResult) (n : number) :
  speculativeNonceOf (data res) = Some n <-> numeric_speculativeNonce res n.
Proof.
  unfold speculativeNonceOf, numeric_speculativeNonce.
  destruct (data res) as [q |]; cbn.
  - destruct (account q) as [acct |] eqn:Ha; cbn.
    + split.
      * intros Hn. exists q, acct. auto.
      * intros [q' [a' [Hq [Ha' Hn]]]]. inversion Hq; subst. congruence.
    + split; [discriminate |].
      intros [q' [a' [Hq [Ha' Hn]]]]. inversion Hq; subst. congruence.
  - split; [discriminate |]. intros [q' [a' [Hq _]]]. discriminate.
Qed.

Lemma paymentOf_refused (ds : list SendDetails) :
  Exists (fun d => refused (sd_payee d)) ds ->
  exists e, map_throwing paymentOf ds = inl e.
Proof.
  intros Hbad. apply map_throwing_Exists.
  eapply Exists_impl; [| exact Hbad]. intros d [e He].
  unfold paymentOf. rewrite He. eauto.
Qed.

Lemma paymentOf_rejects (ds : list SendDetails) (e : exn) :
  map_throwing paymentOf ds = inl e ->
  exists d, In d ds /\ Address_fromB58 (sd_payee d) = inl e.
Proof.
  intros He. destruct (map_throwing_rejects _ _ _ _ _ He) as [d [Hin Hd]].
  exists d. split; [exact Hin |]. unfold paymentOf in Hd.
  destruct (Address_fromB58 (sd_payee d)); [congruence | discriminate].
Qed.

Lemma memos_of_map (f : SendDetails -> exn + Payment Address)
      (ds : list SendDetails) (pays : list (Payment Address)) :
  (forall d p, f d = inr p -> memo p = encodeMemoString (sd_memo d)) ->
  map_throwing f ds = inr pays ->
  map (@memo Address) pays = map (fun d => encodeMemoString (sd_memo d)) ds.
Proof.
  intros Hf Hp. apply map_throwing_Forall2 in Hp.
  induction Hp as [| d p ds' pays' Hdp _ IH]; cbn; [reflexivity |].
  rewrite (Hf _ _ Hdp), IH. reflexivity.
Qed.

(** A rejected collaborator call rejects the whole body, with its error. *)
Lemma rejectedCall_rejects (R : Type) (p : prog R) (w : World) (e : exn) :
  rejectedCall h p w = Some e -> outcome (run h p w) = inl e.
Proof.
  revert w. induction p as [r | e' | X c k IH]; intros w; cbn;
    [discriminate | discriminate |].
  destruct (h X c w) as [[e' | x] w']; cbn.
  - intros E. inversion E. reflexivity.
  - apply IH.
Qed.

(** C5 (as amended): with a keypair from the key store, an account fetch
    that resolves and an SDK whose [PaymentV2] constructor and [sign] do not
    reject, [makePaymentTxn] rejects exactly when the fetched account has no
    numeric speculative nonce or [Address.fromB58] refuses one of the
    payees.  Whatever it hands to [new PaymentV2] carries the fetched
    speculative nonce plus one, and it does hand over one transaction when
    the nonce is numeric and every payee decodes. *)
Theorem makePaymentTxn_nonce_or_refused_payee (ds : list SendDetails)
        (w w1 w2 : World) (kp : Keypair) (res : QueryResult) :
  h _ GetKeypair w = (inr (Some kp), w1) ->
  h _ FetchAccount w1 = (inr res, w2) ->
  constructor_resolves h -> sign_resolves h ->
  (throws (run h (makePaymentTxn ds) w) <->
     (~ exists n, numeric_speculativeNonce res n) \/
     Exists (fun d => refused (sd_payee d)) ds) /\
  (forall n o,
     numeric_speculativeNonce res n ->
     In o (constructedPayments (trace (run h (makePaymentTxn ds) w))) ->
     po_nonce o = n + 1) /\
  (forall n,
     numeric_speculativeNonce res n ->
     Forall (fun d => decodes (sd_payee d)) ds ->
     (exists r, outcome (run h (makePaymentTxn ds) w) = inr r) /\
     exists o, constructedPayments (trace (run h (makePaymentTxn ds) w)) = [o]).
Proof.
  intros Hk Hf C S. split; [| split].
  - unfold throws, makePaymentTxn. cbn. rewrite Hk. cbn. rewrite Hf. cbn.
    destruct (speculativeNonceOf (data res)) as [n |] eqn:Hn; cbn.
    + destruct (map_throwing paymentOf ds) as [e | pays] eqn:Hm; cbn.
      * split; [| eauto]. intros _. right.
        destruct (paymentOf_rejects ds e Hm) as [d [Hin Hd]].
        apply Exists_exists. exists d. split; [exact Hin |]. exists e. exact Hd.
      * constructor_resolves_here C. sign_resolves_here S. split.
        -- intros [e He]. discriminate.
        -- intros [Hnone | Hbad].
           ++ exfalso. apply Hnone. exists n.
              apply speculativeNonceOf_numeric. exact Hn.
           ++ destruct (paymentOf_refused ds Hbad) as [e He]. congruence.
    + split; [| eauto]. intros _. left. intros [n Hnum].
      apply speculativeNonceOf_numeric in Hnum. congruence.
  - intros n o Hnum. apply speculativeNonceOf_numeric in Hnum.
    unfold makePaymentTxn. cbn. rewrite Hk. cbn. rewrite Hf. cbn. rewrite Hnum. cbn.
    next_eval; [tauto |].
    next_call; [intros [<- | []]; reflexivity |].
    next_call; (intros [<- | []]; reflexivity).
  - intros n Hnum D. apply speculativeNonceOf_numeric in Hnum.
    destruct (paymentOf_total ds D) as [pays Hpays].
    unfold makePaymentTxn. cbn. rewrite Hk. cbn. rewrite Hf. cbn. rewrite Hnum. cbn.
    rewrite Hpays. cbn. constructor_resolves_here C. sign_resolves_here S.
    split; eexists; reflexivity.
Qed.

(** C6: every payment handed to [new PaymentV2] by [makePaymentTxn] or
    [calculatePaymentTxnFee] carries [encodeMemoString] of the detail's
    memo, detail by detail; a successful run makes exactly one such call;
    and the call is made, with the encoded memos, as soon as the helper's
    own preconditions hold: for [makePaymentTxn] a keypair, a numeric
    speculative nonce and payees that decode, for [calculatePaymentTxnFee]
    a current account address that decodes. *)
Theorem memo_is_encoded (hook : HookState) (ds : list SendDetails) (w : World) :
  (forall o, In o (constructedPayments (trace (run h (makePaymentTxn ds) w))) ->
     map (@memo Address) (po_payments o)
     = map (fun d => encodeMemoString (sd_memo d)) ds) /\
  (forall o, In o (constructedPayments
                     (trace (run h (calculatePaymentTxnFee hook ds) w))) ->
     map (@memo Address) (po_payments o)
     = map (fun d => encodeMemoString (sd_memo d)) ds) /\
  (forall r, outcome (run h (makePaymentTxn ds) w) = inr r ->
     exists o, constructedPayments (trace (run h (makePaymentTxn ds) w)) = [o]) /\
  (forall r, outcome (run h (calculatePaymentTxnFee hook ds) w) = inr r ->
     exists o, constructedPayments
                 (trace (run h (calculatePaymentTxnFee hook ds) w)) = [o]) /\
  (forall kp w1 res w2 n,
     h _ GetKeypair w = (inr (Some kp), w1) ->
     h _ FetchAccount w1 = (inr res, w2) ->
     numeric_speculativeNonce res n ->
     Forall (fun d => decodes (sd_payee d)) ds ->
     exists o,
       constructedPayments (trace (run h (makePaymentTxn ds) w)) = [o] /\
       map (@memo Address) (po_payments o)
       = map (fun d => encodeMemoString (sd_memo d)) ds) /\
  (forall addr,
     currentAddress hook = Some addr -> addr <> "" -> decodes addr ->
     isValid_sound -> dummy_loaded ->
     exists o,
       constructedPayments
         (trace (run h (calculatePaymentTxnFee hook ds) w)) = [o] /\
       map (@memo Address) (po_payments o)
       = map (fun d => encodeMemoString (sd_memo d)) ds).
Proof.
  assert (P : forall o,
             In o (constructedPayments (trace (run h (makePaymentTxn ds) w))) ->
             map (@memo Address) (po_payments o)
             = map (fun d => encodeMemoString (sd_memo d)) ds).
  { intros o Hin.
    destruct (makePaymentTxn_constructs h _ _ _ Hin) as [kp [n [pays [Hp ->]]]].
    cbn. apply (memos_of_map paymentOf); [| exact Hp].
    intros d p E. apply (paymentOf_inv d p E). }
  assert (F : forall o,
             In o (constructedPayments
                     (trace (run h (calculatePaymentTxnFee hook ds) w))) ->
             map (@memo Address) (po_payments o)
             = map (fun d => encodeMemoString (sd_memo d)) ds).
  { intros o Hin.
    destruct (calculatePaymentTxnFee_constructs h _ _ _ _ Hin)
      as [from [pays [Hp ->]]].
    cbn. apply (memos_of_map feePaymentOf); [| exact Hp].
    intros d p E. apply (feePaymentOf_inv d p E). }
  split; [exact P | split; [exact F | split; [| split; [| split]]]].
  - intros r. apply makePaymentTxn_constructs_once.
  - intros r. apply calculatePaymentTxnFee_constructs_once.
  - intros kp w1 res w2 n Hk Hf Hnum D.
    apply speculativeNonceOf_numeric in Hnum.
    destruct (paymentOf_total ds D) as [pays Hpays].
    assert (Ho : exists o,
               constructedPayments (trace (run h (makePaymentTxn ds) w)) = [o]).
    { unfold makePaymentTxn. cbn. rewrite Hk. cbn. rewrite Hf. cbn.
      rewrite Hnum. cbn. rewrite Hpays. cbn.
      next_call; [eexists; reflexivity |].
      next_call; eexists; reflexivity. }
    destruct Ho as [o Ho]. exists o. split; [exact Ho |].
    apply P. rewrite Ho. left. reflexivity.
  - intros addr Hc Hne [from Hfrom] V Dm.
    destruct (feePaymentOf_total ds V Dm) as [pays Hpays].
    assert (Ho : exists o,
               constructedPayments
                 (trace (run h (calculatePaymentTxnFee hook ds) w)) = [o]).
    { unfold calculatePaymentTxnFee. rewrite Hc. unfold truthy_string.
      destruct (String.eqb_spec addr ""); [contradiction |]. cbn.
      rewrite Hfrom. cbn. rewrite Hpays. cbn.
      next_call; eexists; reflexivity. }
    destruct Ho as [o Ho]. exists o. split; [exact Ho |].
    apply F. rewrite Ho. left. reflexivity.
Qed.

(** C8 (as amended): [calculatePaymentTxnFee] does not reject for missing
    account data: whether it rejects does not depend on the cached account
    query, with no cached nonce the transaction it builds has nonce 1, and
    when the built transaction has no fee the result is a balance of 0 data
    credits.  An unset current account address is the only condition it
    throws for itself, but not the only way it rejects: for an SDK whose
    [PaymentV2] constructor does not reject, whose [isValid] only accepts
    what decodes and whose dummy address loaded, it rejects exactly when the
    address is unset or [Address.fromB58] refuses it. *)
Theorem calculatePaymentTxnFee_rejections_and_defaults (hook : HookState)
        (ds : list SendDetails) (w : World) :
  isValid_sound -> dummy_loaded -> constructor_resolves h ->
  (throws (run h (calculatePaymentTxnFee hook ds) w) <->
     address_unset hook \/
     exists addr, currentAddress hook = Some addr /\ refused addr) /\
  (forall cached,
     throws (run h (calculatePaymentTxnFee
                      {| currentAccount := currentAccount hook;
                         accountData := cached |} ds) w)
     <-> throws (run h (calculatePaymentTxnFee hook ds) w)) /\
  (nonceOf (accountData hook) = None ->
   forall addr,
     currentAddress hook = Some addr -> addr <> "" -> decodes addr ->
     exists o,
       constructedPayments (trace (run h (calculatePaymentTxnFee hook ds) w)) = [o] /\
       po_nonce o = 1) /\
  (forall o txn w',
     constructedPayments (trace (run h (calculatePaymentTxnFee hook ds) w)) = [o] ->
     h _ (NewPaymentV2 o) w = (inr txn, w') ->
     PaymentV2_fee txn = None ->
     outcome (run h (calculatePaymentTxnFee hook ds) w)
     = inr (Balance_new 0 dataCredit)).
Proof.
  intros V Dm C. destruct (feePaymentOf_total ds V Dm) as [pays Hpays].
  assert (T : forall hk,
             throws (run h (calculatePaymentTxnFee hk ds) w) <->
             address_unset hk \/
             exists addr, currentAddress hk = Some addr /\ refused addr).
  { intros hk. unfold throws, address_unset, refused, calculatePaymentTxnFee.
    destruct (currentAddress hk) as [addr |]; cbn; [| split; eauto].
    unfold truthy_string. destruct (String.eqb_spec addr "") as [He | Hne]; cbn.
    - subst. split; eauto.
    - destruct (Address_fromB58 addr) as [e | from] eqn:Hd; cbn.
      + split; [| eauto]. intros _. right. exists addr. split; [reflexivity |].
        exists e. exact Hd.
      + rewrite Hpays. cbn. constructor_resolves_here C. split.
        * intros [e He]. discriminate.
        * intros [[Hu | Hu] | [a [Ha [e He]]]]; congruence. }
  split; [apply T | split; [| split]].
  - intros cached. rewrite (T hook), T. unfold address_unset, currentAddress.
    cbn. reflexivity.
  - intros Hn addr Hc Hne [from Hfrom].
    unfold calculatePaymentTxnFee. rewrite Hc. unfold truthy_string.
    destruct (String.eqb_spec addr ""); [contradiction |]. cbn.
    rewrite Hfrom. cbn. rewrite Hpays, Hn. cbn.
    constructor_resolves_here C. eexists. split; reflexivity.
  - intros o txn w'. unfold calculatePaymentTxnFee.
    destruct (currentAddress hook) as [addr |]; cbn; [| discriminate].
    destruct (truthy_string addr); cbn; [| discriminate].
    next_eval; [discriminate |].
    next_eval; [discriminate |].
    next_call.
    + intros E. inversion E; subst o. rewrite Hcall. discriminate.
    + intros E. inversion E; subst o. rewrite Hcall.
      intros E'. inversion E'; subst. intros ->. reflexivity.
Qed.

(** X1: the helpers neither swallow nor rewrite an error.  If a
    collaborator call rejects during a run, the helper rejects with that
    very error; conversely a rejected helper carries the error of the call
    that rejected in that run, or one of the helper's own messages, or the
    exception [Address.fromB58] threw on one of the addresses the helper
    decodes. *)
Theorem rejections_are_own_or_propagated (hook : HookState) (a : BurnArgs)
        (ds : list SendDetails) (w : World) (e : exn) :
  (rejectedCall h (makeBurnTxn a) w = Some e ->
     outcome (run h (makeBurnTxn a) w) = inl e) /\
  (rejectedCall h (makePaymentTxn ds) w = Some e ->
     outcome (run h (makePaymentTxn ds) w) = inl e) /\
  (rejectedCall h (calculatePaymentTxnFee hook ds) w = Some e ->
     outcome (run h (calculatePaymentTxnFee hook ds) w) = inl e) /\
  (outcome (run h (makeBurnTxn a) w) = inl e ->
     rejectedCall h (makeBurnTxn a) w = Some e \/
     e = Error "missing keypair" \/
     Address_fromB58 (payeeB58 a) = inl e) /\
  (outcome (run h (makePaymentTxn ds) w) = inl e ->
     rejectedCall h (makePaymentTxn ds) w = Some e \/
     e = Error "missing keypair" \/
     e = Error "Could not find speculative nonce for the current account" \/
     exists d, In d ds /\ Address_fromB58 (sd_payee d) = inl e) /\
  (dummy_loaded ->
   outcome (run h (calculatePaymentTxnFee hook ds) w) = inl e ->
     rejectedCall h (calculatePaymentTxnFee hook ds) w = Some e \/
     e = Error "Cannot calculate payment txn fee. Current account not found" \/
     (exists s, currentAddress hook = Some s /\ Address_fromB58 s = inl e) \/
     exists d, In d ds /\ Address_fromB58 (sd_payee d) = inl e).
Proof.
  split; [apply rejectedCall_rejects |].
  split; [apply rejectedCall_rejects |].
  split; [apply rejectedCall_rejects |].
  split; [| split].
  - unfold makeBurnTxn. cbn.
    next_call; [intros E; inversion E; auto |].
    destruct x as [kp |]; cbn; [| intros E; inversion E; auto].
    next_eval; [intros E; inversion E; auto |].
    destruct (dcPayloadSize a) as [size |], (txnFeeMultiplier a) as [mult |]; cbn.
    all: try (destruct (truthy_number size); cbn).
    all: try (destruct (truthy_number mult); cbn).
    all: repeat (next_call; [intros E; inversion E; auto |]).
    all: discriminate.
  - unfold makePaymentTxn. cbn.
    next_call; [intros E; inversion E; auto |].
    destruct x as [kp |]; cbn; [| intros E; inversion E; auto].
    next_call; [intros E; inversion E; auto |].
    destruct (speculativeNonceOf (data x)) as [n |]; cbn;
      [| intros E; inversion E; auto].
    next_eval.
    + intros E; inversion E; subst.
      right; right; right. apply paymentOf_rejects. exact Heval.
    + next_call; [intros E; inversion E; auto |].
      next_call; [intros E; inversion E; auto | discriminate].
  - intros [dummy Hdummy]. unfold calculatePaymentTxnFee.
    destruct (currentAddress hook) as [addr |]; cbn;
      [| intros E; inversion E; auto].
    destruct (truthy_string addr); cbn; [| intros E; inversion E; auto].
    next_eval; [intros E; inversion E; subst; right; right; left; eauto |].
    next_eval.
    + intros E; inversion E; subst.
      destruct (map_throwing_rejects _ _ _ _ _ Heval0) as [d [Hin Hd]].
      unfold feePaymentOf in Hd. rewrite Hdummy in Hd.
      destruct (truthy_string (sd_payee d) && Address_isValid (sd_payee d));
        [| discriminate].
      right; right; right. exists d. split; [exact Hin |].
      destruct (Address_fromB58 (sd_payee d)); [congruence | discriminate].
    + next_call; [intros E; inversion E; auto | discriminate].
Qed.

(** X2: an address [Address.fromB58] refuses stops the helper before
    the SDK is touched.  [makeBurnTxn] rejects with that exception right
    after the keypair fetch (no reconfiguration, no transaction);
    [makePaymentTxn] rejects with the exception of a refused payee after
    the account fetch, and builds and signs nothing. *)
Theorem refused_address_stops_early (a : BurnArgs) (ds : list SendDetails)
        (w w1 : World) (kp : Keypair) :
  h _ GetKeypair w = (inr (Some kp), w1) ->
  (forall e, Address_fromB58 (payeeB58 a) = inl e ->
     run h (makeBurnTxn a) w =
       {| trace := [existT _ _ GetKeypair]; outcome := inl e; final := w1 |}) /\
  (forall res w2 n,
     h _ FetchAccount w1 = (inr res, w2) ->
     speculativeNonceOf (data res) = Some n ->
     Exists (fun d => exists e, Address_fromB58 (sd_payee d) = inl e) ds ->
     exists e d,
       In d ds /\ Address_fromB58 (sd_payee d) = inl e /\
       run h (makePaymentTxn ds) w =
         {| trace := [existT _ _ GetKeypair; existT _ _ FetchAccount];
            outcome := inl e; final := w2 |}).
Proof.
  intros Hk. split.
  - intros e He. unfold makeBurnTxn. cbn. rewrite Hk. cbn. rewrite He. reflexivity.
  - intros res w2 n Hf Hn Hbad.
    assert (Hbad' : Exists (fun d => exists e, paymentOf d = inl e) ds).
    { eapply Exists_impl; [| exact Hbad]. intros d [e He].
      unfold paymentOf. rewrite He. eauto. }
    destruct (map_throwing_Exists _ _ _ _ Hbad') as [e He].
    destruct (map_throwing_rejects _ _ _ _ _ He) as [d [Hin Hd]].
    exists e, d. split; [exact Hin |]. split.
    + unfold paymentOf in Hd.
      destruct (Address_fromB58 (sd_payee d)); [congruence | discriminate].
    + unfold makePaymentTxn. cbn. rewrite Hk. cbn. rewrite Hf. cbn.
      rewrite Hn. cbn. rewrite He. reflexivity.
Qed.


(** X4: whether it succeeds or not, a helper only ever gets through an
    initial part of its successful sequence of steps.  So [makeBurnTxn]
    never fetches account state, [makePaymentTxn] never builds before the
    account fetch nor signs before building, and [calculatePaymentTxnFee]
    never asks for keys, never fetches and never signs. *)
Theorem steps_are_an_initial_part (hook : HookState) (a : BurnArgs)
        (ds : list SendDetails) (w : World) :
  (exists rest,
     (steps (trace (run h (makeBurnTxn a) w)) ++ rest)%list =
       FetchKeypair :: (if configures a then [Configure] else [])
                    ++ [Construct; Sign]) /\
  ~ In FetchAccountState (steps (trace (run h (makeBurnTxn a) w))) /\
  (exists rest,
     (steps (trace (run h (makePaymentTxn ds) w)) ++ rest)%list = spec_steps) /\
  (steps (trace (run h (calculatePaymentTxnFee hook ds) w)) = [] \/
   steps (trace (run h (calculatePaymentTxnFee hook ds) w)) = [Construct]).
Proof.
  assert (B : exists rest,
     (steps (trace (run h (makeBurnTxn a) w)) ++ rest)%list =
       FetchKeypair :: (if configures a then [Configure] else [])
                    ++ [Construct; Sign]).
  { unfold makeBurnTxn, configures. cbn.
    next_call; [eexists; reflexivity |].
    destruct x as [kp |]; cbn; [| eexists; reflexivity].
    next_eval; [eexists; reflexivity |].
    unfold truthy_onumber.
    destruct (dcPayloadSize a) as [size |], (txnFeeMultiplier a) as [mult |]; cbn.
    all: try (destruct (truthy_number size); cbn).
    all: try (destruct (truthy_number mult); cbn).
    all: repeat (next_call; [eexists; reflexivity |]).
    all: eexists; cbn; rewrite ?app_nil_r; reflexivity. }
  split; [exact B | split; [| split]].
  - destruct B as [rest Hrest]. intros Hin.
    assert (Hin' : In FetchAccountState
                      (steps (trace (run h (makeBurnTxn a) w)) ++ rest)%list)
      by (apply in_or_app; left; exact Hin).
    rewrite Hrest in Hin'. destruct (configures a); cbn in Hin'.
    all: repeat (destruct Hin' as [Hin' | Hin']; [discriminate |]); exact Hin'.
  - unfold makePaymentTxn, spec_steps. cbn.
    next_call; [eexists; reflexivity |].
    destruct x as [kp |]; cbn; [| eexists; reflexivity].
    next_call; [eexists; reflexivity |].
    destruct (speculativeNonceOf (data x)) as [n |]; cbn; [| eexists; reflexivity].
    next_eval; [eexists; reflexivity |].
    next_call; [eexists; reflexivity |].
    next_call; exists []; reflexivity.
  - unfold calculatePaymentTxnFee.
    destruct (currentAddress hook) as [addr |]; cbn; [| auto].
    destruct (truthy_string addr); cbn; [| auto].
    next_eval; [auto |].
    next_eval; [auto |].
    next_call; auto.
Qed.

Lemma or_number_zero (o : option number) : or_number o 0 = feeOrZero o.
Proof.
  destruct o as [n |]; [| reflexivity]. cbn. unfold truthy_number.
  destruct (Z.eqb_spec n 0); cbn; congruence.
Qed.

(** X5: a successful helper signs what it built, with the keypair it
    fetched, and that keypair's address is the payer.  The transaction
    handed to [sign] is the one the constructor returned for the single
    constructor call, the [payer] option of [sign] is the keypair the key
    store resolved to, the transaction's payer is that keypair's address,
    and the helper resolves to what [sign] resolved to. *)
Theorem signs_what_it_built (a : BurnArgs) (ds : list SendDetails) (w : World) :
  (forall r, outcome (run h (makeBurnTxn a) w) = inr r ->
     exists kp o txn,
       fst (h _ GetKeypair w) = inr (Some kp) /\
       constructedBurns (trace (run h (makeBurnTxn a) w)) = [o] /\
       tb_payer o = Keypair_address kp /\
       burnSignings (trace (run h (makeBurnTxn a) w)) = [(txn, kp)] /\
       (exists w2 w3, h _ (NewTokenBurnV1 o) w2 = (inr txn, w3)) /\
       (exists w3 w4, h _ (SignTokenBurnV1 txn kp) w3 = (inr r, w4))) /\
  (forall r, outcome (run h (makePaymentTxn ds) w) = inr r ->
     exists kp o txn,
       fst (h _ GetKeypair w) = inr (Some kp) /\
       constructedPayments (trace (run h (makePaymentTxn ds) w)) = [o] /\
       po_payer o = Keypair_address kp /\
       paymentSignings (trace (run h (makePaymentTxn ds) w)) = [(txn, kp)] /\
       (exists w2 w3, h _ (NewPaymentV2 o) w2 = (inr txn, w3)) /\
       (exists w3 w4, h _ (SignPaymentV2 txn kp) w3 = (inr (signedTxn r), w4))).
Proof.
  split; intros r.
  - unfold makeBurnTxn. cbn.
    next_call; [discriminate |].
    destruct x as [kp |]; cbn; [| discriminate].
    next_eval; [discriminate |].
    destruct (dcPayloadSize a) as [size |], (txnFeeMultiplier a) as [mult |]; cbn.
    all: try (destruct (truthy_number size); cbn).
    all: try (destruct (truthy_number mult); cbn).
    all: repeat (next_call; [discriminate |]).
    all: intros E; inversion E; subst.
    all: eexists kp, _, _; repeat split; eauto.
  - unfold makePaymentTxn. cbn.
    next_call; [discriminate |].
    destruct x as [kp |]; cbn; [| discriminate].
    next_call; [discriminate |].
    destruct (speculativeNonceOf (data x)) as [n |]; cbn; [| discriminate].
    next_eval; [discriminate |].
    next_call; [discriminate |].
    next_call; [discriminate |].
    intros E; inversion E; subst. cbn.
    eexists kp, _, _; repeat split; eauto.
Qed.

(** X6: the partial record of a successful [makePaymentTxn] describes
    the transaction as it was handed to [sign]: its type, payments (payee in
    base58, memo, amount), payer, nonce and fee are those of the unsigned
    transaction, whatever [sign] does. *)
Theorem partialTxn_describes_unsigned (ds : list SendDetails) (w : World)
        (r : PaymentResult) :
  outcome (run h (makePaymentTxn ds) w) = inr r ->
  exists txn kp,
    paymentSignings (trace (run h (makePaymentTxn ds) w)) = [(txn, kp)] /\
    type (partialTxn r) = PaymentV2_type txn /\
    payments (partialTxn r) =
      map (fun p => {| pp_payee := Address_b58 (payee p);
                       pp_memo := memo p;
                       pp_amount := amount p |})
          (PaymentV2_payments txn) /\
    payer (partialTxn r) = option_map Address_b58 (PaymentV2_payer txn) /\
    ptx_nonce (partialTxn r) = PaymentV2_nonce txn /\
    fee (partialTxn r) = PaymentV2_fee txn.
Proof.
  unfold makePaymentTxn. cbn.
  next_call; [discriminate |].
  destruct x as [kp |]; cbn; [| discriminate].
  next_call; [discriminate |].
  destruct (speculativeNonceOf (data x)) as [n |]; cbn; [| discriminate].
  next_eval; [discriminate |].
  next_call; [discriminate |].
  next_call; [discriminate |].
  intros E; inversion E; subst. cbn.
  eexists _, _. repeat split.
Qed.

(** X7: a successful [calculatePaymentTxnFee] resolves to a balance in
    data credits whose amount is the fee of the one transaction it built,
    or 0 when that transaction has no fee. *)
Theorem fee_estimate_is_built_fee (hook : HookState) (ds : list SendDetails)
        (w : World) (b : Balance) :
  outcome (run h (calculatePaymentTxnFee hook ds) w) = inr b ->
  exists o txn w',
    constructedPayments (trace (run h (calculatePaymentTxnFee hook ds) w)) = [o] /\
    h _ (NewPaymentV2 o) w = (inr txn, w') /\
    b = Balance_new (feeOrZero (PaymentV2_fee txn)) dataCredit.
Proof.
  unfold calculatePaymentTxnFee.
  destruct (currentAddress hook) as [addr |]; cbn; [| discriminate].
  destruct (truthy_string addr); cbn; [| discriminate].
  next_eval; [discriminate |].
  next_eval; [discriminate |].
  next_call; [discriminate |].
  intros E; inversion E; subst.
  eexists _, _, _.
  split; [reflexivity | split; [exact Hcall | rewrite or_number_zero; reflexivity]].
Qed.

(** X8: the transaction [calculatePaymentTxnFee] builds is paid by the
    current account (its non-empty stored address, decoded) and numbered
    one above the cached [nonce], or 1 without a cached nonce; the cached
    speculative nonce plays no part. *)
Theorem fee_estimate_payer_and_nonce (hook : HookState) (ds : list SendDetails)
        (w : World) (o : PaymentOptions Address) :
  In o (constructedPayments (trace (run h (calculatePaymentTxnFee hook ds) w))) ->
  (exists addr,
     currentAddress hook = Some addr /\ addr <> "" /\
     Address_fromB58 addr = inr (po_payer o)) /\
  po_nonce o = feeOrZero (nonceOf (accountData hook)) + 1.
Proof.
  unfold calculatePaymentTxnFee.
  destruct (currentAddress hook) as [addr |]; cbn; [| tauto].
  unfold truthy_string. destruct (String.eqb_spec addr ""); cbn; [tauto |].
  next_eval; [tauto |].
  next_eval; [tauto |].
  rewrite or_number_zero.
  next_call; (intros [<- | []]; cbn; split; [exists addr; auto | reflexivity]).
Qed.

(** X9: the estimate is computed over the payments that will be sent.
    For the same payment details, the amounts and memos handed to
    [new PaymentV2] by [calculatePaymentTxnFee] and by [makePaymentTxn]
    agree, and when every payee is non-empty and valid the whole payment
    lists agree. *)
Theorem estimate_covers_the_same_payments (hook : HookState)
        (ds : list SendDetails) (w1 w2 : World)
        (sent estimated : PaymentOptions Address) :
  In sent (constructedPayments (trace (run h (makePaymentTxn ds) w1))) ->
  In estimated
     (constructedPayments (trace (run h (calculatePaymentTxnFee hook ds) w2))) ->
  map (@amount Address) (po_payments sent)
  = map (@amount Address) (po_payments estimated) /\
  map (@memo Address) (po_payments sent)
  = map (@memo Address) (po_payments estimated) /\
  ((forall d, In d ds -> usable_payee d = true) ->
   po_payments sent = po_payments estimated).
Proof.
  intros Hs He.
  destruct (makePaymentTxn_constructs h _ _ _ Hs) as [kp [n [ps [Hps ->]]]].
  destruct (calculatePaymentTxnFee_constructs h _ _ _ _ He) as [from [es [Hes ->]]].
  cbn. clear Hs He.
  assert (F : forall (f g : SendDetails -> exn + Payment Address)
                     (X : Type) (proj : Payment Address -> X)
                     (spec : SendDetails -> X) xs ys,
             (forall d p, f d = inr p -> proj p = spec d) ->
             map_throwing f xs = inr ys -> map proj ys = map spec xs).
  { intros f g X proj spec xs ys Hf Hxs. apply map_throwing_Forall2 in Hxs.
    induction Hxs as [| d p xs' ys' Hdp _ IH]; cbn; [reflexivity |].
    rewrite (Hf _ _ Hdp), IH. reflexivity. }
  split; [| split].
  - rewrite (F paymentOf paymentOf _ (@amount Address)
               (fun d => Balance_integerBalance (sd_balanceAmount d)) ds ps);
      [| intros d p E; apply (paymentOf_inv d p E) | exact Hps].
    symmetry. apply (F feePaymentOf feePaymentOf); [| exact Hes].
    intros d p E; apply (feePaymentOf_inv d p E).
  - rewrite (F paymentOf paymentOf _ (@memo Address)
               (fun d => encodeMemoString (sd_memo d)) ds ps);
      [| intros d p E; apply (paymentOf_inv d p E) | exact Hps].
    symmetry. apply (F feePaymentOf feePaymentOf); [| exact Hes].
    intros d p E; apply (feePaymentOf_inv d p E).
  - intros Hu.
    assert (E : map_throwing feePaymentOf ds = map_throwing paymentOf ds).
    { apply map_throwing_ext. intros d Hd. specialize (Hu d Hd).
      unfold usable_payee in Hu. unfold feePaymentOf, paymentOf. rewrite Hu.
      reflexivity. }
    congruence.
Qed.

(** X10: the cache-only account query is skipped exactly when the
    current account address is unset or the client is not ready.  When it
    is not skipped it is keyed by the real, non-empty address (never by the
    [''] placeholder), and the fee estimate then cannot reject for a missing
    account. *)
Theorem cached_query_needs_an_address (hook : HookState) (clientReady : bool) :
  (accountQuerySkip hook clientReady = true
   <-> address_unset hook \/ clientReady = false) /\
  (accountQuerySkip hook clientReady = false ->
     accountQueryAddress hook <> "" /\
     currentAddress hook = Some (accountQueryAddress hook)) /\
  (address_unset hook -> accountQueryAddress hook = "") /\
  (accountQuerySkip hook clientReady = false ->
     quiet h -> isValid_sound -> dummy_loaded ->
     decodes (accountQueryAddress hook) ->
     forall ds w, ~ throws (run h (calculatePaymentTxnFee hook ds) w)).
Proof.
  assert (S : accountQuerySkip hook clientReady = false ->
              accountQueryAddress hook <> "" /\
              currentAddress hook = Some (accountQueryAddress hook)).
  { unfold accountQuerySkip, accountQueryAddress, truthy_string.
    destruct (currentAddress hook) as [addr |]; cbn; [| discriminate].
    destruct (String.eqb_spec addr ""); cbn; [discriminate |]. auto. }
  split; [| split; [exact S | split]].
  - unfold accountQuerySkip, address_unset, truthy_string.
    destruct (currentAddress hook) as [addr |]; cbn.
    + destruct (String.eqb_spec addr ""); cbn.
      * subst. split; auto.
      * destruct clientReady; cbn; split; auto.
        intros [[Hu | Hu] | Hr]; congruence.
    + split; auto.
  - unfold address_unset, accountQueryAddress. intros [-> | ->]; reflexivity.
  - intros Hskip Q V Dm Dec ds w Hthrow.
    destruct (S Hskip) as [Hne Hcur].
    apply (calculatePaymentTxnFee_throws_iff h hook ds w Q V Dm) in Hthrow.
    + unfold address_unset in Hthrow. rewrite Hcur in Hthrow.
      destruct Hthrow as [Hu | Hu]; congruence.
    + intros s Hs _. rewrite Hcur in Hs. inversion Hs; subst. exact Dec.
Qed.

(** X14: an empty list of payment details is accepted.  With a keypair
    and a numeric speculative nonce [makePaymentTxn] builds and signs a payment
    transaction without payments; with a current account
    [calculatePaymentTxnFee] estimates the fee of such a transaction. *)
Theorem empty_payment_list_is_accepted (hook : HookState) (w w1 w2 : World)
        (kp : Keypair) (res : QueryResult) (n : number) :
  quiet h ->
  (h _ GetKeypair w = (inr (Some kp), w1) ->
   h _ FetchAccount w1 = (inr res, w2) ->
   speculativeNonceOf (data res) = Some n ->
   (exists r, outcome (run h (makePaymentTxn []) w) = inr r) /\
   constructedPayments (trace (run h (makePaymentTxn []) w))
   = [ {| po_payer := Keypair_address kp; po_payments := [];
          po_nonce := n + 1 |} ] /\
   steps (trace (run h (makePaymentTxn []) w)) = spec_steps) /\
  (forall addr from,
     currentAddress hook = Some addr -> addr <> "" ->
     Address_fromB58 addr = inr from ->
     (exists b, outcome (run h (calculatePaymentTxnFee hook []) w) = inr b) /\
     constructedPayments (trace (run h (calculatePaymentTxnFee hook []) w))
     = [ {| po_payer := from; po_payments := [];
            po_nonce := feeOrZero (nonceOf (accountData hook)) + 1 |} ]).
Proof.
  intros Q. split.
  - intros Hk Hf Hn. unfold makePaymentTxn. cbn. rewrite Hk. cbn. rewrite Hf. cbn.
    rewrite Hn. cbn. next_resolves Q. next_resolves Q.
    split; [eexists; reflexivity | split; reflexivity].
  - intros addr from Hc Hne Hd. unfold calculatePaymentTxnFee. rewrite Hc.
    unfold truthy_string. destruct (String.eqb_spec addr ""); [contradiction |].
    cbn. rewrite Hd. cbn. rewrite or_number_zero. next_resolves Q.
    split; [eexists; reflexivity | reflexivity].
Qed.

End MoreHelperFacts.

(** ** The colour hook, continued *)

Section MoreNetworkColorFacts.

Variable TESTNET : number.

(** X11: off testnet and off Solana a given, non-empty [defaultColor]
    is what the hook returns. *)
Theorem network_color_default (l1Network : string) (a : ColorArgs) (c : string) :
  netType a <> Some TESTNET -> l1Network <> "solana" ->
  defaultColor a = Some c -> c <> "" ->
  useNetworkColor TESTNET l1Network a = Some c.
Proof.
  intros Hn Hl Hd Hc. unfold useNetworkColor.
  assert (T : is_testnet TESTNET (netType a) = false).
  { unfold is_testnet. destruct (netType a) as [n |]; [| reflexivity].
    destruct (Z.eqb_spec n TESTNET); [congruence | reflexivity]. }
  rewrite T, Hd.
  destruct (String.eqb_spec l1Network "solana"); [contradiction |].
  unfold truthy_string. destruct (String.eqb_spec c ""); [contradiction |].
  reflexivity.
Qed.

(** X12: the hook yields no colour exactly when the network is neither
    testnet nor Solana and no non-empty [defaultColor] was passed. *)
Theorem network_color_undefined_iff (l1Network : string) (a : ColorArgs) :
  useNetworkColor TESTNET l1Network a = None <->
  netType a <> Some TESTNET /\ l1Network <> "solana" /\
  (defaultColor a = None \/ defaultColor a = Some "").
Proof.
  unfold useNetworkColor.
  destruct (is_testnet TESTNET (netType a)) eqn:T.
  - assert (Hn : netType a = Some TESTNET).
    { unfold is_testnet in T. destruct (netType a) as [n |]; [| discriminate].
      apply Z.eqb_eq in T. congruence. }
    split.
    + destruct (truthy_obool (muted a)); discriminate.
    + intros [Hc _]. contradiction.
  - assert (Hn : netType a <> Some TESTNET).
    { intros E. unfold is_testnet in T. rewrite E, Z.eqb_refl in T. discriminate. }
    destruct (String.eqb_spec l1Network "solana") as [Hl | Hl].
    + split; [discriminate | intros [_ [Hc _]]; contradiction].
    + destruct (defaultColor a) as [c |]; [| split; auto].
      unfold truthy_string. destruct (String.eqb_spec c "") as [Hc | Hc]; cbn.
      * subst. split; auto.
      * split; [discriminate |].
        intros [_ [_ [Hd | Hd]]]; [discriminate | inversion Hd; contradiction].
Qed.

(** X13: [muted] only matters on testnet: off testnet two calls that
    differ only in [muted] return the same colour. *)
Theorem network_color_muted_only_on_testnet (l1Network : string)
        (d : option string) (n : option number) (m m' : option bool) :
  n <> Some TESTNET ->
  useNetworkColor TESTNET l1Network
    {| defaultColor := d; netType := n; muted := m |}
  = useNetworkColor TESTNET l1Network
      {| defaultColor := d; netType := n; muted := m' |}.
Proof.
  intros Hn. unfold useNetworkColor, is_testnet. cbn.
  destruct n as [k |]; [| reflexivity].
  destruct (Z.eqb_spec k TESTNET); [congruence | reflexivity].
Qed.

End MoreNetworkColorFacts.

(** ** On concrete inputs *)

Section MoreReferenceFacts.

Import Reference.
Import Samples.

Lemma reference_constructor_resolves : constructor_resolves handle.
Proof. intros o w. cbn. eauto. Qed.

Lemma reference_sign_resolves : sign_resolves handle.
Proof. intros t k w. cbn. eauto. Qed.

Lemma account7_has_nonce_7 : numeric_speculativeNonce account7 7.
Proof. eexists _, _. repeat split. Qed.

(** C5, counterexample: with a keypair in the key store and speculative
    nonce 7 on the network, [makePaymentTxn] still rejects when a payee does
    not decode: [Address.fromB58] throws inside the [map], after the account
    fetch and before anything is built. *)
Lemma refused_payee_rejects_despite_numeric_nonce :
  handle GetKeypair world = (inr (Some keys), world) /\
  handle FetchAccount world =
    (inr {| data := Some {| account :=
                              Some {| nonce := Some 6;
                                      speculativeNonce := Some 7 |} |} |},
     world) /\
  run handle (makePaymentTxn [toNobody]) world =
    {| trace := [existT _ _ GetKeypair; existT _ _ FetchAccount];
       outcome := inl (Error "invalid address");
       final := world |} /\
  throws (run handle (makePaymentTxn [toNobody]) world).
Proof.
  repeat split. eexists. reflexivity.
Qed.

Lemma makePaymentTxn_nonce_or_refused_payee_witness :
  handle GetKeypair world = (inr (Some keys), world) /\
  handle FetchAccount world = (inr account7, world) /\
  constructor_resolves handle /\ sign_resolves handle /\
  (throws (run handle (makePaymentTxn [toAlice]) world) <->
     (~ exists n, numeric_speculativeNonce account7 n) \/
     Exists (fun d => refused (sd_payee d)) [toAlice]) /\
  In {| po_payer := bob;
        po_payments := [ {| payee := alice; amount := 250; memo := Some "aGk=" |} ];
        po_nonce := 8 |}
     (constructedPayments (trace (run handle (makePaymentTxn [toAlice]) world))) /\
  po_nonce {| po_payer := bob;
              po_payments :=
                [ {| payee := alice; amount := 250; memo := Some "aGk=" |} ];
              po_nonce := 8 |} = 7 + 1 /\
  (exists r, outcome (run handle (makePaymentTxn [toAlice]) world) = inr r).
Proof.
  pose proof (makePaymentTxn_nonce_or_refused_payee handle [toAlice]
                world world world keys account7 eq_refl eq_refl
                reference_constructor_resolves reference_sign_resolves)
    as [Hthrows [Hnonce Hbuilt]].
  assert (Hin : In {| po_payer := bob;
                      po_payments :=
                        [ {| payee := alice; amount := 250; memo := Some "aGk=" |} ];
                      po_nonce := 8 |}
                   (constructedPayments
                      (trace (run handle (makePaymentTxn [toAlice]) world)))).
  { vm_compute. left. reflexivity. }
  assert (Dd : Forall (fun d => decodes (sd_payee d)) [toAlice]).
  { repeat constructor. eexists; vm_compute; reflexivity. }
  split; [reflexivity |].
  split; [reflexivity |].
  split; [exact reference_constructor_resolves |].
  split; [exact reference_sign_resolves |].
  split; [exact Hthrows |].
  split; [exact Hin |].
  split; [exact (Hnonce 7 _ account7_has_nonce_7 Hin) |].
  exact (proj1 (Hbuilt 7 account7_has_nonce_7 Dd)).
Defined.

Lemma memo_is_encoded_witness :
  In {| po_payer := bob;
        po_payments := [ {| payee := alice; amount := 250; memo := Some "aGk=" |} ];
        po_nonce := 8 |}
     (constructedPayments (trace (run handle (makePaymentTxn [toAlice]) world))) /\
  map (@memo Address)
      (po_payments
         {| po_payer := bob;
            po_payments := [ {| payee := alice; amount := 250; memo := Some "aGk=" |} ];
            po_nonce := 8 |})
  = map (fun d => encodeMemoString (sd_memo d)) [toAlice] /\
  In {| po_payer := bob;
        po_payments :=
          [ {| payee := "13PuqyWXzPYeXcF1B9ZRx7RLkEygeL374ZABiQdwRSNzASdA1sn";
               amount := 40; memo := Some "aGk=" |};
            {| payee := bob; amount := 75; memo := None |} ];
        po_nonce := 7 |}
     (constructedPayments
        (trace (run handle (calculatePaymentTxnFee hook [toNobody; toBob]) world))) /\
  map (@memo Address)
      (po_payments
         {| po_payer := bob;
            po_payments :=
              [ {| payee := "13PuqyWXzPYeXcF1B9ZRx7RLkEygeL374ZABiQdwRSNzASdA1sn";
                   amount := 40; memo := Some "aGk=" |};
                {| payee := bob; amount := 75; memo := None |} ];
            po_nonce := 7 |})
  = map (fun d => encodeMemoString (sd_memo d)) [toNobody; toBob] /\
  (exists o,
     constructedPayments
       (trace (run handle (calculatePaymentTxnFee hook [toNobody; toBob]) world)) = [o] /\
     map (@memo Address) (po_payments o) = [Some "aGk="; None]) /\
  outcome (run handle (calculatePaymentTxnFee hook [toNobody; toBob]) world)
  = inr {| integerBalance := 15000; currency := dataCredit |}.
Proof.
  assert (Hpay : In {| po_payer := bob;
                       po_payments :=
                         [ {| payee := alice; amount := 250; memo := Some "aGk=" |} ];
                       po_nonce := 8 |}
                    (constructedPayments
                       (trace (run handle (makePaymentTxn [toAlice]) world)))).
  { vm_compute. left. reflexivity. }
  assert (Hfee : In {| po_payer := bob;
                       po_payments :=
                         [ {| payee := "13PuqyWXzPYeXcF1B9ZRx7RLkEygeL374ZABiQdwRSNzASdA1sn";
                              amount := 40; memo := Some "aGk=" |};
                           {| payee := bob; amount := 75; memo := None |} ];
                       po_nonce := 7 |}
                    (constructedPayments
                       (trace (run handle
                                   (calculatePaymentTxnFee hook [toNobody; toBob])
                                   world)))).
  { vm_compute. left. reflexivity. }
  split; [exact Hpay |].
  split; [exact (proj1 (memo_is_encoded handle hook [toAlice] world) _ Hpay) |].
  split; [exact Hfee |].
  split; [exact (proj1 (proj2 (memo_is_encoded handle hook [toNobody; toBob] world))
                       _ Hfee) |].
  split; [| reflexivity].
  exact (proj2 (proj2 (proj2 (proj2 (proj2
           (memo_is_encoded handle hook [toNobody; toBob] world)))))
           bob eq_refl ltac:(discriminate)
           (ex_intro _ bob eq_refl)
           reference_isValid_sound reference_dummy_loaded).
Defined.

(** C8, counterexample: with a current account whose stored address is
    set but does not decode, [calculatePaymentTxnFee] rejects although the
    address is not unset: [Address.fromB58] throws on it. *)
Lemma refused_stored_address_rejects_fee_estimate :
  ~ address_unset refusedAddressHook /\
  currentAddress refusedAddressHook = Some "not an address" /\
  run handle (calculatePaymentTxnFee refusedAddressHook [toAlice]) world =
    {| trace := [];
       outcome := inl (Error "invalid address");
       final := world |} /\
  throws (run handle (calculatePaymentTxnFee refusedAddressHook [toAlice]) world).
Proof.
  split; [| repeat split; eexists; reflexivity].
  intros [Hu | Hu]; discriminate.
Qed.

Lemma calculatePaymentTxnFee_rejections_and_defaults_witness :
  isValid_sound /\ dummy_loaded /\ constructor_resolves handle /\
  (throws (run handle (calculatePaymentTxnFee coldHook [toAlice]) staleWorld) <->
     address_unset coldHook \/
     exists addr, currentAddress coldHook = Some addr /\ refused addr) /\
  (throws (run handle (calculatePaymentTxnFee hook [toAlice]) staleWorld)
   <-> throws (run handle (calculatePaymentTxnFee coldHook [toAlice]) staleWorld)) /\
  (exists o,
     constructedPayments
       (trace (run handle (calculatePaymentTxnFee coldHook [toAlice]) staleWorld)) = [o] /\
     po_nonce o = 1) /\
  outcome (run handle (calculatePaymentTxnFee coldHook [toAlice]) staleWorld)
  = inr (Balance_new 0 dataCredit) /\
  (throws (run handle (calculatePaymentTxnFee coldRefusedAddressHook [toAlice])
               staleWorld)
   <-> address_unset coldRefusedAddressHook \/
       exists addr, currentAddress coldRefusedAddressHook = Some addr /\ refused addr).
Proof.
  pose proof (calculatePaymentTxnFee_rejections_and_defaults handle coldHook
                [toAlice] staleWorld reference_isValid_sound
                reference_dummy_loaded reference_constructor_resolves)
    as [Ht [Hc [Hn Hf]]].
  split; [exact reference_isValid_sound |].
  split; [exact reference_dummy_loaded |].
  split; [exact reference_constructor_resolves |].
  split; [exact Ht |].
  split; [exact (Hc (accountData hook)) |].
  split; [exact (Hn eq_refl bob eq_refl ltac:(discriminate)
                    (ex_intro _ bob eq_refl)) |].
  split; [eapply Hf; vm_compute; reflexivity |].
  exact (proj1 (calculatePaymentTxnFee_rejections_and_defaults handle
                  coldRefusedAddressHook [toAlice] staleWorld
                  reference_isValid_sound reference_dummy_loaded
                  reference_constructor_resolves)).
Defined.

Lemma rejections_are_own_or_propagated_witness :
  rejectedCall offline (makePaymentTxn [toAlice]) world
  = Some (Error "Network request failed") /\
  outcome (run offline (makePaymentTxn [toAlice]) world)
  = inl (Error "Network request failed") /\
  outcome (run handle (makePaymentTxn [toAlice; toNobody]) world)
  = inl (Error "invalid address") /\
  (rejectedCall handle (makePaymentTxn [toAlice; toNobody]) world
   = Some (Error "invalid address") \/
   Error "invalid address" = Error "missing keypair" \/
   Error "invalid address"
   = Error "Could not find speculative nonce for the current account" \/
   exists d, In d [toAlice; toNobody] /\
             Address_fromB58 (sd_payee d) = inl (Error "invalid address")).
Proof.
  split; [reflexivity |].
  split.
  - exact (proj1 (proj2 (rejections_are_own_or_propagated offline hook burn
                           [toAlice] world (Error "Network request failed")))
                 eq_refl).
  - split; [reflexivity |].
    exact (proj1 (proj2 (proj2 (proj2 (proj2
             (rejections_are_own_or_propagated handle hook burn
                [toAlice; toNobody] world (Error "invalid address"))))))
             eq_refl).
Defined.

Lemma refused_address_stops_early_witness :
  handle GetKeypair world = (inr (Some keys), world) /\
  Address_fromB58 (payeeB58 burnToNobody) = inl (Error "invalid address") /\
  run handle (makeBurnTxn burnToNobody) world =
    {| trace := [existT _ _ GetKeypair];
       outcome := inl (Error "invalid address");
       final := world |}.
Proof.
  split; [reflexivity | split; [reflexivity |]].
  exact (proj1 (refused_address_stops_early handle burnToNobody [toNobody]
                  world world keys eq_refl)
               (Error "invalid address") eq_refl).
Defined.


Lemma signs_what_it_built_witness :
  exists r,
    outcome (run handle (makePaymentTxn [toAlice]) world) = inr r /\
    exists kp o txn,
      fst (handle GetKeypair world) = inr (Some kp) /\
      constructedPayments (trace (run handle (makePaymentTxn [toAlice]) world)) = [o] /\
      po_payer o = Keypair_address kp /\
      paymentSignings (trace (run handle (makePaymentTxn [toAlice]) world))
      = [(txn, kp)] /\
      (exists w2 w3, handle (NewPaymentV2 o) w2 = (inr txn, w3)) /\
      (exists w3 w4, handle (SignPaymentV2 txn kp) w3 = (inr (signedTxn r), w4)).
Proof.
  destruct (outcome (run handle (makePaymentTxn [toAlice]) world))
    as [e | r] eqn:E; [vm_compute in E; discriminate |].
  exists r. split; [reflexivity |].
  exact (proj2 (signs_what_it_built handle burn [toAlice] world) r E).
Defined.

Lemma partialTxn_describes_unsigned_witness :
  exists r,
    outcome (run handle (makePaymentTxn [toAlice]) world) = inr r /\
    exists txn kp,
      paymentSignings (trace (run handle (makePaymentTxn [toAlice]) world))
      = [(txn, kp)] /\
      type (partialTxn r) = PaymentV2_type txn /\
      payments (partialTxn r) =
        map (fun p => {| pp_payee := Address_b58 (payee p);
                         pp_memo := memo p;
                         pp_amount := amount p |})
            (PaymentV2_payments txn) /\
      payer (partialTxn r) = option_map Address_b58 (PaymentV2_payer txn) /\
      ptx_nonce (partialTxn r) = PaymentV2_nonce txn /\
      fee (partialTxn r) = PaymentV2_fee txn.
Proof.
  destruct (outcome (run handle (makePaymentTxn [toAlice]) world))
    as [e | r] eqn:E; [vm_compute in E; discriminate |].
  exists r. split; [reflexivity |].
  exact (partialTxn_describes_unsigned handle [toAlice] world r E).
Defined.

Lemma fee_estimate_is_built_fee_witness :
  outcome (run handle (calculatePaymentTxnFee hook [toAlice]) world)
  = inr {| integerBalance := 10000; currency := dataCredit |} /\
  exists o txn w',
    constructedPayments
      (trace (run handle (calculatePaymentTxnFee hook [toAlice]) world)) = [o] /\
    handle (NewPaymentV2 o) world = (inr txn, w') /\
    {| integerBalance := 10000; currency := dataCredit |}
    = Balance_new (feeOrZero (PaymentV2_fee txn)) dataCredit.
Proof.
  split; [reflexivity |].
  exact (fee_estimate_is_built_fee handle hook [toAlice] world _ eq_refl).
Defined.

Lemma fee_estimate_payer_and_nonce_witness :
  In {| po_payer := bob;
        po_payments := [ {| payee := alice; amount := 250; memo := Some "aGk=" |} ];
        po_nonce := 7 |}
     (constructedPayments
        (trace (run handle (calculatePaymentTxnFee hook [toAlice]) world))) /\
  (exists addr,
     currentAddress hook = Some addr /\ addr <> "" /\
     Address_fromB58 addr = inr bob) /\
  7 = feeOrZero (nonceOf (accountData hook)) + 1.
Proof.
  assert (Hin : In {| po_payer := bob;
                      po_payments :=
                        [ {| payee := alice; amount := 250; memo := Some "aGk=" |} ];
                      po_nonce := 7 |}
                   (constructedPayments
                      (trace (run handle (calculatePaymentTxnFee hook [toAlice]) world)))).
  { vm_compute. left. reflexivity. }
  split; [exact Hin |].
  exact (fee_estimate_payer_and_nonce handle hook [toAlice] world _ Hin).
Defined.

Lemma estimate_covers_the_same_payments_witness :
  (forall d, In d [toAlice; toBob] -> usable_payee d = true) /\
  po_payments
    {| po_payer := bob;
       po_payments := [ {| payee := alice; amount := 250; memo := Some "aGk=" |};
                        {| payee := bob; amount := 75; memo := None |} ];
       po_nonce := 8 |}
  = po_payments
      {| po_payer := bob;
         po_payments := [ {| payee := alice; amount := 250; memo := Some "aGk=" |};
                          {| payee := bob; amount := 75; memo := None |} ];
         po_nonce := 7 |}.
Proof.
  assert (Hu : forall d, In d [toAlice; toBob] -> usable_payee d = true).
  { intros d [<- | [<- | []]]; reflexivity. }
  split; [exact Hu |].
  refine (proj2 (proj2 (estimate_covers_the_same_payments handle hook
                          [toAlice; toBob] world world _ _ _ _)) Hu).
  - vm_compute. left. reflexivity.
  - vm_compute. left. reflexivity.
Defined.

Lemma cached_query_needs_an_address_witness :
  accountQuerySkip hook true = false /\
  accountQueryAddress hook <> "" /\
  currentAddress hook = Some (accountQueryAddress hook).
Proof.
  split; [reflexivity |].
  exact (proj1 (proj2 (cached_query_needs_an_address handle hook true)) eq_refl).
Defined.

Lemma network_color_default_witness :
  Some 0 <> Some 16 /\ "helium" <> "solana" /\ "primaryText" <> "" /\
  useNetworkColor 16 "helium"
    {| defaultColor := Some "primaryText"; netType := Some 0; muted := Some true |}
  = Some "primaryText".
Proof.
  repeat (split; [discriminate |]).
  apply (network_color_default 16 "helium" _ "primaryText");
    [discriminate | discriminate | reflexivity | discriminate].
Defined.

Lemma network_color_undefined_iff_witness :
  useNetworkColor 16 "helium"
    {| defaultColor := Some ""; netType := Some 0; muted := None |} = None.
Proof.
  apply (network_color_undefined_iff 16 "helium").
  split; [discriminate | split; [discriminate | right; reflexivity]].
Defined.

Lemma network_color_muted_only_on_testnet_witness :
  Some 0 <> Some 16 /\
  useNetworkColor 16 "solana"
    {| defaultColor := None; netType := Some 0; muted := Some true |}
  = useNetworkColor 16 "solana"
      {| defaultColor := None; netType := Some 0; muted := Some false |}.
Proof.
  split; [discriminate |].
  apply (network_color_muted_only_on_testnet 16 "solana"). discriminate.
Defined.

Lemma empty_payment_list_is_accepted_witness :
  quiet handle /\
  handle GetKeypair world = (inr (Some keys), world) /\
  handle FetchAccount world = (inr account7, world) /\
  speculativeNonceOf (data account7) = Some 7 /\
  (exists r, outcome (run handle (makePaymentTxn []) world) = inr r) /\
  constructedPayments (trace (run handle (makePaymentTxn []) world))
  = [ {| po_payer := Keypair_address keys; po_payments := []; po_nonce := 7 + 1 |} ] /\
  steps (trace (run handle (makePaymentTxn []) world)) = spec_steps.
Proof.
  split; [exact reference_quiet |].
  repeat (split; [reflexivity |]).
  exact (proj1 (empty_payment_list_is_accepted handle hook world world world
                  keys account7 7 reference_quiet) eq_refl eq_refl eq_refl).
Defined.

End MoreReferenceFacts.
